(** * Carbon footprint engine and sensor reconciliation: a shallow embedding

    Sources embedded here:
    - [src/backend/models/emission_data.py]: the enums and [EmissionDataPoint];
    - [src/backend/api/calculations/carbon_calculator.py]:
      [EmissionFactorDatabase] and [CarbonCalculator];
    - [src/backend/api/emission_factors.py]: the factor cache refresh;
    - [src/backend/main.py]: [compute_sensor_emissions].

    Python [float]s are IEEE binary64 values, modelled with the primitive
    floats of [PrimFloat]; Python [dict]s keep insertion order and are
    modelled as association lists with the dict's update discipline. *)

From Stdlib Require Import Floats ZArith Ascii String List Bool Permutation Lia Morphisms.
From AAC_tactics Require Import AAC.
Import ListNotations.

Set Warnings "-inexact-float".
Open Scope string_scope.

(** ** Python dictionaries with string keys *)
Module Dict.

(** [d.get(k)]: the binding of [k], if any. *)
Fixpoint get {V} (k : string) (d : list (string * V)) : option V :=
  match d with
  | [] => None
  | (k', v) :: d' => if String.eqb k k' then Some v else get k d'
  end.

(** [k in d] *)
Definition mem {V} (k : string) (d : list (string * V)) : bool :=
  match get k d with Some _ => true | None => false end.

(** [d[k] = v]: an existing key keeps its position, a new key goes last. *)
Fixpoint set {V} (k : string) (v : V) (d : list (string * V)) : list (string * V) :=
  match d with
  | [] => [(k, v)]
  | (k', v') :: d' => if String.eqb k k' then (k', v) :: d' else (k', v') :: set k v d'
  end.

(** [d.values()] *)
Definition values {V} (d : list (string * V)) : list V := map snd d.

End Dict.

(** ** Data model ([models/emission_data.py]) *)

Inductive EmissionScope := SCOPE_1 | SCOPE_2 | SCOPE_3.

Definition EmissionScope_eqb (a b : EmissionScope) : bool :=
  match a, b with
  | SCOPE_1, SCOPE_1 | SCOPE_2, SCOPE_2 | SCOPE_3, SCOPE_3 => true
  | _, _ => false
  end.

Inductive ActivityType :=
| ELECTRICITY | NATURAL_GAS | HEATING_OIL | DIESEL | PETROL
| TRANSPORT_FREIGHT | TRANSPORT_BUSINESS_TRAVEL | WASTE_DISPOSAL
| WATER_CONSUMPTION | REFRIGERANTS | OTHER.

(** [ActivityType.value] *)
Definition ActivityType_value (a : ActivityType) : string :=
  match a with
  | ELECTRICITY => "electricity"
  | NATURAL_GAS => "natural_gas"
  | HEATING_OIL => "heating_oil"
  | DIESEL => "diesel"
  | PETROL => "petrol"
  | TRANSPORT_FREIGHT => "transport_freight"
  | TRANSPORT_BUSINESS_TRAVEL => "transport_business_travel"
  | WASTE_DISPOSAL => "waste_disposal"
  | WATER_CONSUMPTION => "water_consumption"
  | REFRIGERANTS => "refrigerants"
  | OTHER => "other"
  end.

Inductive ComplianceStatus := COMPLIANT | WARNING | NON_COMPLIANT | PENDING_REVIEW.

(** Python truthiness of a float: [0.0] and [-0.0] are false, NaN is true. *)
Definition float_truthy (x : float) : bool := negb (PrimFloat.eqb x 0%float).

(** Truthiness of an [Optional[float]]. *)
Definition opt_truthy (x : option float) : bool :=
  match x with None => false | Some v => float_truthy v end.

(** Truthiness of an [Optional[str]]. *)
Definition str_truthy (s : option string) : bool :=
  match s with None => false | Some s' => negb (String.eqb s' "") end.

(** ** [EmissionFactorDatabase] *)

(** The factor table: activity key -> (country | sub-type | "default") -> factor. *)
Definition FactorTable := list (string * list (string * float)).

(** [_load_default_factors] *)
Definition default_factors : FactorTable :=
  [ ("electricity",
      [("SE", 0.013); ("NO", 0.018); ("DK", 0.167); ("FI", 0.093); ("default", 0.500)]);
    ("natural_gas", [("default", 2.03)]);
    ("diesel", [("default", 2.68)]);
    ("petrol", [("default", 2.31)]);
    ("heating_oil", [("default", 2.96)]);
    ("lpg", [("default", 3.00)]);
    ("transport_freight",
      [("truck", 0.097); ("rail", 0.022); ("ship", 0.011); ("air", 0.602);
       ("default", 0.097)]);
    ("transport_business_travel",
      [("car", 0.171); ("bus", 0.089); ("train", 0.041); ("flight_domestic", 0.255);
       ("flight_international", 0.195); ("default", 0.171)]);
    ("waste_disposal",
      [("landfill", 0.500); ("incineration", 0.020); ("recycling", -0.150);
       ("composting", 0.010); ("default", 0.500)]);
    ("water_consumption", [("default", 0.344)]);
    ("refrigerants",
      [("R-134a", 1430); ("R-410A", 2088); ("R-32", 675); ("default", 1430)]) ]%float.

(** [get_emission_factor]; the activity is passed as its key string
    ([activity_type.value], or a plain string, which the code also accepts). *)
Definition get_emission_factor (tbl : FactorTable) (activity_key : string)
    (country_code : string) (sub_type : option string) : float :=
  match Dict.get activity_key tbl with
  | None => 1.0%float
  | Some factors =>
      (* if sub_type and sub_type in factors: return factors[sub_type] *)
      let by_sub := match sub_type with
                    | Some s => if str_truthy sub_type then Dict.get s factors else None
                    | None => None
                    end in
      match by_sub with
      | Some f => f
      | None =>
          match Dict.get country_code factors with
          | Some f => f
          | None =>
              match Dict.get "default" factors with
              | Some f => f
              | None => 1.0%float
              end
          end
      end
  end.

(** The lookup order as the specification words it: sub-type key, else
    country key, else "default", else the global fallback 1.0. *)
Definition getFactor_spec (tbl : FactorTable) (activity_key : string)
    (country_code : string) (sub_type : option string) : float :=
  match Dict.get activity_key tbl with
  | None => 1.0%float
  | Some factors =>
      let sub_entry := match sub_type with
                       | Some s => Dict.get s factors
                       | None => None
                       end in
      match sub_entry, Dict.get country_code factors, Dict.get "default" factors with
      | Some f, _, _ => f
      | None, Some f, _ => f
      | None, None, Some f => f
      | None, None, None => 1.0%float
      end
  end.

(** No activity map of the table has the empty string as a key (the
    empty sub-type is falsy in Python, so the code never looks it up). *)
Definition no_empty_key (tbl : FactorTable) : Prop :=
  forall a m, Dict.get a tbl = Some m -> Dict.get "" m = None.

(** ** [EmissionDataPoint] *)

(** Dates are [datetime.date] values, compared through their proleptic
    ordinal ([date.toordinal()]), which preserves the order. *)
Record EmissionDataPoint := mkDataPoint {
  date : Z;
  company_id : string;
  activity_type : ActivityType;
  scope : EmissionScope;
  amount : float;
  unit : string;
  emission_factor : option float;
  co2_emissions : option float;
  country_code : string;
  verified : bool
}.

(** Assignment of the two engine-filled fields of a data point. *)
Definition set_calculated (dp : EmissionDataPoint) (ef co2 : option float)
    : EmissionDataPoint :=
  mkDataPoint (date dp) (company_id dp) (activity_type dp) (scope dp) (amount dp)
    (unit dp) ef co2 (country_code dp) (verified dp).

(** ** Units *)

(** [str.lower()] on the ASCII letters; every other character is kept.
    Strings are UTF-8 byte strings, so ["m³"] is ["m"] followed by the
    bytes 0xC2 0xB3.  Of the non-ASCII characters only the Kelvin sign
    lower-cases to an ASCII letter ("k"), and every alias starting with
    "k" has the factor 1, so [_convert_units] gives the same results. *)
Definition lower_char (c : Ascii.ascii) : Ascii.ascii :=
  let n := Ascii.nat_of_ascii c in
  if (65 <=? n)%nat && (n <=? 90)%nat then Ascii.ascii_of_nat (n + 32) else c.

Fixpoint lower (s : string) : string :=
  match s with
  | EmptyString => EmptyString
  | String c s' => String (lower_char c) (lower s')
  end.

Definition m_cubed : string :=
  String "m"%char (String (Ascii.ascii_of_nat 194) (String (Ascii.ascii_of_nat 179) EmptyString)).

Definition in_list (s : string) (l : list string) : bool :=
  existsb (String.eqb s) l.

(** [CarbonCalculator._convert_units]; the activity type is unused there. *)
Definition _convert_units (amount : float) (unit : string) : float :=
  let unit_lower := lower unit in
  if in_list unit_lower ["kwh"; "kilowatt-hour"] then amount
  else if in_list unit_lower ["mwh"; "megawatt-hour"] then (amount * 1000)%float
  else if in_list unit_lower ["gwh"; "gigawatt-hour"] then (amount * 1000000)%float
  else if in_list unit_lower ["m3"; m_cubed; "cubic meter"] then amount
  else if in_list unit_lower ["l"; "liter"; "litre"] then (amount / 1000)%float
  else if in_list unit_lower ["kg"; "kilogram"] then amount
  else if in_list unit_lower ["t"; "ton"; "tonne"] then (amount * 1000)%float
  else if in_list unit_lower ["km"; "kilometer"] then amount
  else if in_list unit_lower ["m"; "meter"] then (amount / 1000)%float
  else amount.

(** The unit table of [_convert_units], read as data: each row lists the
    lower-case aliases of a unit and the scaling applied to the amount. *)
Definition unit_alias_table : list (list string * (float -> float)) :=
  [ (["kwh"; "kilowatt-hour"], fun a => a);
    (["mwh"; "megawatt-hour"], fun a => (a * 1000)%float);
    (["gwh"; "gigawatt-hour"], fun a => (a * 1000000)%float);
    (["m3"; m_cubed; "cubic meter"], fun a => a);
    (["l"; "liter"; "litre"], fun a => (a / 1000)%float);
    (["kg"; "kilogram"], fun a => a);
    (["t"; "ton"; "tonne"], fun a => (a * 1000)%float);
    (["km"; "kilometer"], fun a => a);
    (["m"; "meter"], fun a => (a / 1000)%float) ].

(** Scale [amount] by the first row whose aliases contain [u] exactly;
    any other unit leaves the amount as it is. *)
Definition scale_by_table (u : string) (amount : float) : float :=
  match find (fun row => in_list u (fst row)) unit_alias_table with
  | Some (_, f) => f amount
  | None => amount
  end.

(** ** [CarbonCalculator] *)

Record CarbonCalculator := mkCalculator {
  emission_db : FactorTable;
  thresholds : list (string * float)
}.

(** [_load_thresholds]: [config_thresholds] is [config['compliance']['thresholds']]
    when the config file exists, parses and has that section; [None] covers
    every other case (no path, no file, no section, read or parse failure). *)
Definition _load_thresholds (config_thresholds : option (list (string * float)))
    : list (string * float) :=
  match config_thresholds with
  | Some t => t
  | None => [("scope_1_warning", 100000); ("scope_2_warning", 50000);
             ("scope_3_warning", 200000)]%float
  end.

Definition default_calculator : CarbonCalculator :=
  mkCalculator default_factors (_load_thresholds None).

(** [calculate_emissions] *)
Definition calculate_emissions (c : CarbonCalculator) (activity_type : ActivityType)
    (amount : float) (unit : string) (country_code : string)
    (sub_type : option string) : float :=
  let emission_factor :=
    get_emission_factor (emission_db c) (ActivityType_value activity_type)
      country_code sub_type in
  let converted_amount := _convert_units amount unit in
  (converted_amount * emission_factor)%float.

(** [calculate_for_data_point]: both fields are filled when falsy. *)
Definition calculate_for_data_point (c : CarbonCalculator) (dp : EmissionDataPoint)
    : EmissionDataPoint :=
  let ef :=
    if negb (opt_truthy (emission_factor dp)) then
      Some (get_emission_factor (emission_db c) (ActivityType_value (activity_type dp))
              (country_code dp) None)
    else emission_factor dp in
  let co2 :=
    if negb (opt_truthy (co2_emissions dp)) then
      Some (calculate_emissions c (activity_type dp) (amount dp) (unit dp)
              (country_code dp) None)
    else co2_emissions dp in
  set_calculated dp ef co2.

(** [calculate_bulk] *)
Definition calculate_bulk (c : CarbonCalculator) (dps : list EmissionDataPoint)
    : list EmissionDataPoint :=
  map (calculate_for_data_point c) dps.

(** [_check_compliance_status]; [None] is the [KeyError] raised when a
    threshold the [or] chain reaches is missing from the configured dict. *)
Definition _check_compliance_status (c : CarbonCalculator) (scope_1 scope_2 scope_3 : float)
    : option ComplianceStatus :=
  match Dict.get "scope_1_warning" (thresholds c) with
  | None => None
  | Some t1 =>
      if PrimFloat.ltb t1 scope_1 then Some WARNING else
      match Dict.get "scope_2_warning" (thresholds c) with
      | None => None
      | Some t2 =>
          if PrimFloat.ltb t2 scope_2 then Some WARNING else
          match Dict.get "scope_3_warning" (thresholds c) with
          | None => None
          | Some t3 => if PrimFloat.ltb t3 scope_3 then Some WARNING else Some COMPLIANT
          end
      end
  end.

(** The two summations of [generate_summary], written over any addition
    [add] with neutral [zero] and embedding [inj] of the co2 values; the
    code runs them with Python's float addition (the instances below). *)
Section Aggregation.
Context {A : Type} (add : A -> A -> A) (zero : A) (inj : float -> A).

(** [sum(xs)]: a left fold from [0]. *)
Definition sum_with (xs : list float) : A :=
  fold_left (fun acc x => add acc (inj x)) xs zero.

(** One iteration of the [emissions_by_activity] loop:
    [emissions_by_activity[activity] = emissions_by_activity.get(activity, 0) + dp.co2_emissions]
    when [dp.co2_emissions] is truthy. *)
Definition activity_step_with (acc : list (string * A)) (dp : EmissionDataPoint)
    : list (string * A) :=
  match co2_emissions dp with
  | Some v =>
      if float_truthy v then
        let activity := ActivityType_value (activity_type dp) in
        let prev := match Dict.get activity acc with Some x => x | None => zero end in
        Dict.set activity (add prev (inj v)) acc
      else acc
  | None => acc
  end.

Definition emissions_by_activity_with (dps : list EmissionDataPoint) : list (string * A) :=
  fold_left activity_step_with dps [].

End Aggregation.

(** Python's [sum(xs)] over floats ([0 + x] is [0.0 + x]). *)
Definition py_sum (xs : list float) : float := sum_with PrimFloat.add 0%float (fun x => x) xs.

(** [float(n)] for a list length (exact below 2^53). *)
Definition float_of_nat (n : nat) : float := PrimFloat.of_uint63 (Uint63.of_Z (Z.of_nat n)).

Module EmissionSummary.
Record t := mk {
  company_id : string;
  period_start : Z;
  period_end : Z;
  scope_1_total : float;
  scope_2_total : float;
  scope_3_total : float;
  total_emissions : float;
  emissions_by_activity : list (string * float);
  previous_period_total : option float;
  change_percentage : option float;
  compliance_status : ComplianceStatus;
  data_points_count : nat;
  verified_data_percentage : float
}.
End EmissionSummary.

(** The filter of [generate_summary]:
    [dp.company_id == company_id and period_start <= dp.date <= period_end]. *)
Definition in_period (company : string) (period_start period_end : Z)
    (dp : EmissionDataPoint) : bool :=
  String.eqb (company_id dp) company && (period_start <=? date dp)%Z
  && (date dp <=? period_end)%Z.

(** [dp.co2_emissions for dp in filtered_points if dp.scope == s and dp.co2_emissions] *)
Definition scope_emissions (s : EmissionScope) (dps : list EmissionDataPoint) : list float :=
  flat_map (fun dp => match co2_emissions dp with
                      | Some v => if EmissionScope_eqb (scope dp) s && float_truthy v
                                  then [v] else []
                      | None => []
                      end) dps.

(** The [emissions_by_activity] dict, with float addition. *)
Definition emissions_by_activity_of (dps : list EmissionDataPoint) : list (string * float) :=
  emissions_by_activity_with PrimFloat.add 0%float (fun x => x) dps.

(** The part of [generate_summary] after the filter and [calculate_bulk]. *)
Definition summarize_points (c : CarbonCalculator) (company : string)
    (period_start period_end : Z) (previous_period_total : option float)
    (filtered_points : list EmissionDataPoint) : option EmissionSummary.t :=
  let scope_1_total := py_sum (scope_emissions SCOPE_1 filtered_points) in
  let scope_2_total := py_sum (scope_emissions SCOPE_2 filtered_points) in
  let scope_3_total := py_sum (scope_emissions SCOPE_3 filtered_points) in
  let total_emissions := (scope_1_total + scope_2_total + scope_3_total)%float in
  let emissions_by_activity := emissions_by_activity_of filtered_points in
  let change_percentage :=
    match previous_period_total with
    | Some p => if float_truthy p && PrimFloat.ltb 0 p
                then Some ((total_emissions - p) / p * 100)%float else None
    | None => None
    end in
  let verified_count := length (filter verified filtered_points) in
  let verified_percentage :=
    match filtered_points with
    | [] => 0%float
    | _ => (float_of_nat verified_count / float_of_nat (length filtered_points) * 100)%float
    end in
  match _check_compliance_status c scope_1_total scope_2_total scope_3_total with
  | None => None
  | Some compliance_status =>
      Some (EmissionSummary.mk company period_start period_end scope_1_total
              scope_2_total scope_3_total total_emissions emissions_by_activity
              previous_period_total change_percentage compliance_status
              (length filtered_points) verified_percentage)
  end.

(** [generate_summary]; [None] when the compliance check raises. *)
Definition generate_summary (c : CarbonCalculator) (data_points : list EmissionDataPoint)
    (company : string) (period_start period_end : Z)
    (previous_period_total : option float) : option EmissionSummary.t :=
  let filtered_points := filter (in_period company period_start period_end) data_points in
  summarize_points c company period_start period_end previous_period_total
    (calculate_bulk c filtered_points).

(** ** Factor cache refresh ([api/emission_factors.py]) *)

Definition is_space (c : Ascii.ascii) : bool :=
  let n := Ascii.nat_of_ascii c in
  ((n =? 32) || ((9 <=? n) && (n <=? 13)))%nat.

Fixpoint lstrip (s : string) : string :=
  match s with
  | String c s' => if is_space c then lstrip s' else s
  | EmptyString => EmptyString
  end.

Fixpoint string_rev (s : string) (acc : string) : string :=
  match s with
  | String c s' => string_rev s' (String c acc)
  | EmptyString => acc
  end.

(** [str.strip()] on ASCII whitespace. *)
Definition strip (s : string) : string :=
  string_rev (lstrip (string_rev (lstrip s) EmptyString)) EmptyString.

(** [s.replace(c, '')] for a single character [c]. *)
Fixpoint remove_char (c : Ascii.ascii) (s : string) : string :=
  match s with
  | String c' s' => if Ascii.eqb c c' then remove_char c s' else String c' (remove_char c s')
  | EmptyString => EmptyString
  end.

(** [normalize_unit] *)
Definition normalize_unit (u : string) : string :=
  if String.eqb u "" then ""
  else remove_char "."%char (remove_char " "%char (strip (lower u))).

(** [s.split(',')] *)
Fixpoint split_comma_aux (s : string) (cur : string) : list string :=
  match s with
  | EmptyString => [string_rev cur EmptyString]
  | String c s' =>
      if Ascii.eqb c ","%char then string_rev cur EmptyString :: split_comma_aux s' EmptyString
      else split_comma_aux s' (String c cur)
  end.

Definition split_comma (s : string) : list string := split_comma_aux s EmptyString.

(** Dicts keyed by an entity code that may be Python's [None]. *)
Module ODict.
Definition key_eqb (a b : option string) : bool :=
  match a, b with
  | Some x, Some y => String.eqb x y
  | None, None => true
  | _, _ => false
  end.
Fixpoint get {V} (k : option string) (d : list (option string * V)) : option V :=
  match d with
  | [] => None
  | (k', v) :: d' => if key_eqb k k' then Some v else get k d'
  end.
Definition mem {V} (k : option string) (d : list (option string * V)) : bool :=
  match get k d with Some _ => true | None => false end.
Fixpoint set {V} (k : option string) (v : V) (d : list (option string * V))
    : list (option string * V) :=
  match d with
  | [] => [(k, v)]
  | (k', v') :: d' => if key_eqb k k' then (k', v) :: d' else (k', v') :: set k v d'
  end.
End ODict.

(** What the factor functions read from and write to: the cache file, the
    [EMISSION_FACTORS_SOURCES] variable, the Ember API and the configured
    source URLs. *)
Record FactorWorld := mkFactorWorld {
  (** JSON object stored at [CACHE_PATH]; [None] when absent or unreadable *)
  cache_file : option (list (string * float));
  (** whether [save_cached_factors] can write the file *)
  cache_writable : bool;
  (** [DEFAULT_SOURCES] *)
  emission_factors_sources : string;
  (** the intensity (gCO2/kWh) Ember reports for an entity code; [None]
      when the request fails, is not 200, or carries no value *)
  ember_intensity : option string -> option float;
  (** the body a source URL serves, as the mapping it parses to *)
  source_data : string -> option (list (string * float))
}.

(** [load_cached_factors] *)
Definition load_cached_factors (w : FactorWorld) : list (string * float) :=
  match cache_file w with
  | Some data => fold_left (fun acc kv => Dict.set (normalize_unit (fst kv)) (snd kv) acc) data []
  | None => []
  end.

(** JSON object keys: Python's [None] is written as ["null"]. *)
Definition json_key (k : option string) : string :=
  match k with Some s => s | None => "null" end.

(** [save_cached_factors] *)
Definition save_cached_factors (mapping : list (option string * float)) (w : FactorWorld)
    : FactorWorld :=
  if cache_writable w then
    mkFactorWorld (Some (map (fun kv => (json_key (fst kv), snd kv)) mapping))
      (cache_writable w) (emission_factors_sources w) (ember_intensity w) (source_data w)
  else w.

(** [fetch_from_url]: the mapping a configured source provides. *)
Definition fetch_from_url (w : FactorWorld) (url : string) : list (string * float) :=
  match source_data w url with Some m => m | None => [] end.

(** [load_electricity_factors_from_api] *)
Definition ember_entities : list (option string) :=
  [Some "SWE"; Some "NOR"; Some "DNK"; Some "FIN"; None].

Definition load_electricity_factors_from_api (w : FactorWorld) : list (option string * float) :=
  fold_left (fun emission_data code =>
               match ember_intensity w code with
               | Some g => ODict.set code (g / 1000)%float emission_data
               | None => emission_data
               end) ember_entities [].

(** [[s.strip() for s in DEFAULT_SOURCES.split(',') if s.strip()]] *)
Definition configured_sources (w : FactorWorld) : list string :=
  map strip (filter (fun s => negb (String.eqb (strip s) "")) (split_comma (emission_factors_sources w))).

(** The merge loop of [refresh_cached_factors]: one pass per configured
    source, each calling [load_electricity_factors_from_api()]. *)
Definition merge_first_seen (combined mapping : list (option string * float))
    : list (option string * float) :=
  fold_left (fun acc kv => if ODict.mem (fst kv) acc then acc else ODict.set (fst kv) (snd kv) acc)
    mapping combined.

Definition refresh_loop (w : FactorWorld) (sources : list string) : list (option string * float) :=
  fold_left (fun combined (src : string) => merge_first_seen combined (load_electricity_factors_from_api w))
    sources [].

(** [refresh_cached_factors]: the new world and the returned mapping. *)
Definition refresh_cached_factors (w : FactorWorld) : FactorWorld * list (string * float) :=
  let sources := configured_sources w in
  match sources with
  | [] => (w, load_cached_factors w)
  | _ =>
      let combined := refresh_loop w sources in
      let w' := match combined with [] => w | _ => save_cached_factors combined w end in
      (w', load_cached_factors w')
  end.

(** The same world with other contents at the source URLs. *)
Definition with_source_data (w : FactorWorld) (d : string -> option (list (string * float)))
    : FactorWorld :=
  mkFactorWorld (cache_file w) (cache_writable w) (emission_factors_sources w)
    (ember_intensity w) d.

(** One configured JSON source serving a factor for "kwh", an unreachable
    Ember API and no cache file yet. *)
Definition one_source_world : FactorWorld :=
  mkFactorWorld None true "https://factors.example/eu.json" (fun _ => None)
    (fun url => if String.eqb url "https://factors.example/eu.json"
                then Some [("kwh", 0.5%float)] else None).

(** ** Sensor reconciliation ([main.py], [compute_sensor_emissions]) *)

(** Correctly rounded [a / b] of two Python ints (true division). *)
Definition Zdiv_float (a b : Z) : float :=
  match a, b with
  | Z0, _ | _, Z0 => 0%float
  | _, _ =>
      SF2Prim (SFdiv 53 1024
                 (S754_finite (a <? 0)%Z (Z.to_pos (Z.abs a)) 0)
                 (S754_finite (b <? 0)%Z (Z.to_pos (Z.abs b)) 0))
  end.

(** [num / den] rounded half to even, for [den > 0]. *)
Definition round_half_even_div (num den : Z) : Z :=
  let q := (num / den)%Z in
  let r := (num mod den)%Z in
  match Z.compare (2 * r) den with
  | Lt => q
  | Gt => (q + 1)%Z
  | Eq => if Z.even q then q else (q + 1)%Z
  end.

(** Python's [round(x, ndigits)] on a float: the exact binary value is
    rounded half-to-even to [ndigits] decimals and the decimal is read back
    as the nearest float. *)
Definition py_round (x : float) (ndigits : Z) : float :=
  match Prim2SF x with
  | S754_finite s m e =>
      let num := (Zpos m * 10 ^ ndigits * (if (0 <=? e)%Z then 2 ^ e else 1))%Z in
      let den := (if (0 <=? e)%Z then 1 else 2 ^ (- e))%Z in
      let r := Zdiv_float (round_half_even_div num den) (10 ^ ndigits) in
      if s then (- r)%float else r
  | _ => x
  end.

(** [timedelta.total_seconds()] of a difference of two datetimes, the
    datetimes being microseconds on one naive UTC time line. *)
Definition total_seconds (us : Z) : float := Zdiv_float us 1000000.

(** Association lists with a key equality, for Python dicts whose keys are
    not strings. *)
Section AList.
Context {K V : Type} (eqb : K -> K -> bool).

Fixpoint al_get (k : K) (d : list (K * V)) : option V :=
  match d with
  | [] => None
  | (k', v) :: d' => if eqb k k' then Some v else al_get k d'
  end.

Fixpoint al_set (k : K) (v : V) (d : list (K * V)) : list (K * V) :=
  match d with
  | [] => [(k, v)]
  | (k', v') :: d' => if eqb k k' then (k', v) :: d' else (k', v') :: al_set k v d'
  end.

End AList.

(** Sensor identifiers as stored: integer primary keys or strings. *)
Inductive PyKey := KInt (n : Z) | KStr (s : string).

Definition PyKey_eqb (a b : PyKey) : bool :=
  match a, b with
  | KInt x, KInt y => Z.eqb x y
  | KStr x, KStr y => String.eqb x y
  | _, _ => false
  end.

Definition PyKey_truthy (k : PyKey) : bool :=
  match k with KInt n => negb (Z.eqb n 0) | KStr s => negb (String.eqb s "") end.

(** Keys of [by_canonical_id], which may be [None]. *)
Definition OKey_eqb (a b : option PyKey) : bool :=
  match a, b with
  | Some x, Some y => PyKey_eqb x y
  | None, None => true
  | _, _ => false
  end.

(** Python's [x or y] on optional keys and optional strings. *)
Definition key_or (x y : option PyKey) : option PyKey :=
  match x with Some k => if PyKey_truthy k then x else y | None => y end.

Definition str_or (x y : option string) : option string :=
  if str_truthy x then x else y.

(** A row of the [sensors] table (the fields the function reads). *)
Record SensorRow := mkSensorRow {
  s_id : option PyKey;
  s_device_id : option PyKey;
  s_power_kW : option float;
  s_emission_factor : option float
}.

(** A JSON value read by [float(...)]: a number, or a value on which
    [float] raises. *)
Inductive PyNum := Num (x : float) | NotNum.

(** A row of [sensors_activity] (the fields the function reads; [None] is
    an absent or null field). *)
Record ActivityRow := mkActivityRow {
  a_device_id : option PyKey;
  a_sensor_id : option PyKey;
  a_device : option PyKey;
  a_deviceId : option PyKey;
  a_energy_kwh : option PyNum;
  a_kwh : option PyNum;
  a_energy : option PyNum;
  a_hours : option PyNum;
  a_session_start : option string;
  a_start : option string;
  a_timestamp : option string;
  a_session_end : option string;
  a_end : option string;
  a_state : option string;
  a_time : option string;
  a_created_at : option string
}.

(** The per-sensor metadata of [sensor_map]. *)
Record SensorMeta := mkSensorMeta {
  meta_id : option PyKey;
  meta_device_id : option PyKey;
  meta_power_kW : float;
  meta_emission_factor : float;
  meta_row : SensorRow
}.

(** [float(x or 0)] *)
Definition float_or_zero (x : option float) : float :=
  match x with Some v => if float_truthy v then v else 0%float | None => 0%float end.

Definition meta_of (s : SensorRow) : SensorMeta :=
  mkSensorMeta (s_id s) (s_device_id s) (float_or_zero (s_power_kW s))
    (float_or_zero (s_emission_factor s)) s.

(** The [sensor_map] loop: both identifiers of a sensor map to its meta. *)
Definition sensor_map_step (m : list (PyKey * SensorMeta)) (s : SensorRow)
    : list (PyKey * SensorMeta) :=
  let meta := meta_of s in
  let m1 := match s_id s with Some sid => al_set PyKey_eqb sid meta m | None => m end in
  match s_device_id s with Some ext => al_set PyKey_eqb ext meta m1 | None => m1 end.

Definition build_sensor_map (sensors : list SensorRow) : list (PyKey * SensorMeta) :=
  fold_left sensor_map_step sensors [].

(** [did = a.get('device_id') or a.get('sensor_id') or a.get('device') or a.get('deviceId')] *)
Definition row_device_key (a : ActivityRow) : option PyKey :=
  key_or (key_or (key_or (a_device_id a) (a_sensor_id a)) (a_device a)) (a_deviceId a).

(** The canonical id a row is grouped under, if it is kept. *)
Definition row_canonical (smap : list (PyKey * SensorMeta)) (a : ActivityRow)
    : option (option PyKey) :=
  match row_device_key a with
  | None => None
  | Some did =>
      match al_get PyKey_eqb did smap with
      | None => None
      | Some meta => Some (meta_id meta)
      end
  end.

(** [by_canonical_id.setdefault(canonical_id, []).append(a)] *)
Definition group_step (smap : list (PyKey * SensorMeta))
    (groups : list (option PyKey * list ActivityRow)) (a : ActivityRow)
    : list (option PyKey * list ActivityRow) :=
  match row_canonical smap a with
  | None => groups
  | Some cid =>
      match al_get OKey_eqb cid groups with
      | Some acts => al_set OKey_eqb cid (acts ++ [a])%list groups
      | None => al_set OKey_eqb cid [a] groups
      end
  end.

Definition group_by_canonical (smap : list (PyKey * SensorMeta)) (activities : list ActivityRow)
    : list (option PyKey * list ActivityRow) :=
  fold_left (group_step smap) activities [].

(** [str.upper()] on the ASCII letters. *)
Definition upper_char (c : Ascii.ascii) : Ascii.ascii :=
  let n := Ascii.nat_of_ascii c in
  if (97 <=? n)%nat && (n <=? 122)%nat then Ascii.ascii_of_nat (n - 32) else c.

Fixpoint upper (s : string) : string :=
  match s with
  | EmptyString => EmptyString
  | String c s' => String (upper_char c) (upper s')
  end.

(** The fields the classification reads. *)
Definition explicit_field (a : ActivityRow) : option PyNum :=
  match a_energy_kwh a with
  | Some v => Some v
  | None => match a_kwh a with Some v => Some v | None => a_energy a end
  end.

Definition session_start_of (a : ActivityRow) : option string :=
  str_or (str_or (a_session_start a) (a_start a)) (a_timestamp a).

Definition session_end_of (a : ActivityRow) : option string :=
  str_or (a_session_end a) (a_end a).

Definition state_of (a : ActivityRow) : option string :=
  if str_truthy (a_state a) then option_map upper (a_state a) else None.

Definition event_time_of (a : ActivityRow) : option string :=
  str_or (str_or (a_timestamp a) (a_time a)) (a_created_at a).

Inductive RowKind := ExplicitRow | DurationRow | EventRow | SkippedRow.

Definition RowKind_eqb (x y : RowKind) : bool :=
  match x, y with
  | ExplicitRow, ExplicitRow | DurationRow, DurationRow
  | EventRow, EventRow | SkippedRow, SkippedRow => true
  | _, _ => false
  end.

(** Step 1 of the per-sensor loop: the list a row is appended to. *)
Definition classify (a : ActivityRow) : RowKind :=
  match explicit_field a with
  | Some _ => ExplicitRow
  | None =>
      match a_hours a with
      | Some _ => DurationRow
      | None =>
          if str_truthy (session_start_of a) && str_truthy (session_end_of a) then DurationRow
          else match state_of a with
               | Some st =>
                   if (String.eqb st "ON" || String.eqb st "OFF")
                      && str_truthy (event_time_of a)
                   then EventRow else SkippedRow
               | None => SkippedRow
               end
      end
  end.

(** Method A: the explicit value of a row, if [float] accepts it. *)
Definition explicit_energy (a : ActivityRow) : option float :=
  match explicit_field a with Some (Num x) => Some x | _ => None end.

(** Method A: [(energy_kwh, cycles, on_hours)]. *)
Definition method_explicit (acts : list ActivityRow) : float * nat * float :=
  (fold_left (fun e a => match explicit_energy a with
                         | Some x => (e + x)%float
                         | None => e
                         end) acts 0%float,
   length acts, 0%float).

(** An entry of [summaries]. *)
Module SensorSummary.
Record t := mk {
  sensor_id : option PyKey;
  device_id : option PyKey;
  energy_kwh : float;
  emissions_kg : float;
  cycles : nat;
  on_hours : float;
  meta : SensorRow
}.
End SensorSummary.

Section Reconcile.
(** [_parse_iso], to microseconds on a naive UTC time line; [None] when
    the string cannot be parsed. *)
Variable parse_iso : string -> option Z.

(** [_parse_iso] on a field value: [None] and [""] give [None]. *)
Definition parse_opt (o : option string) : option Z :=
  match o with Some s => if String.eqb s "" then None else parse_iso s | None => None end.

(** Method B: the hours a duration row contributes, or [None] when it is
    skipped (the [except] branch included). *)
Definition duration_hours (start_iso end_iso : string) (a : ActivityRow) : option float :=
  match a_hours a with
  | Some (Num h) => Some h
  | _ =>
      match parse_opt (session_start_of a), parse_opt (session_end_of a) with
      | Some s_dt, Some e_dt =>
          if (s_dt <? e_dt)%Z then
            match parse_opt (Some start_iso), parse_opt (Some end_iso) with
            | Some w_start, Some w_end =>
                let s_dt_clamped := Z.max s_dt w_start in
                let e_dt_clamped := Z.min e_dt w_end in
                if (s_dt_clamped <? e_dt_clamped)%Z
                then Some (total_seconds (e_dt_clamped - s_dt_clamped) / 3600)%float
                else Some 0%float
            | _, _ => None
            end
          else None
      | _, _ => None
      end
  end.

(** Method B over the duration rows of a sensor. *)
Definition method_duration (power_kw : float) (start_iso end_iso : string)
    (acts : list ActivityRow) : float * nat * float :=
  fold_left (fun st a =>
               let '(energy_kwh, cycles, on_hours) := st in
               match duration_hours start_iso end_iso a with
               | Some hrs =>
                   (if PrimFloat.ltb 0 power_kw then (energy_kwh + hrs * power_kw)%float
                    else energy_kwh,
                    S cycles, (on_hours + hrs)%float)
               | None => st
               end) acts (0%float, O, 0%float).

(** Method C: the parsed events [(ts, state)] of the event rows. *)
Definition events_of (acts : list ActivityRow) : list (Z * string) :=
  flat_map (fun a => match parse_opt (event_time_of a) with
                     | Some dt => [(dt, match a_state a with Some st => upper st | None => "" end)]
                     | None => []
                     end) acts.

(** [events.sort(key=lambda x: x['ts'])], a stable sort. *)
Fixpoint insert_event (ev : Z * string) (l : list (Z * string)) : list (Z * string) :=
  match l with
  | [] => [ev]
  | ev' :: l' => if (fst ev <? fst ev')%Z then ev :: l else ev' :: insert_event ev l'
  end.

Definition sort_events (l : list (Z * string)) : list (Z * string) :=
  fold_left (fun acc ev => insert_event ev acc) l [].

(** One event of the ON/OFF loop; [None] is the [TypeError] of comparing
    with an unparsed window bound. State: [(on_since, ev_on_seconds, ev_cycles)]. *)
Definition event_step (start_dt end_dt : option Z)
    (st : option (option Z * float * nat)) (ev : Z * string)
    : option (option Z * float * nat) :=
  match st with
  | None => None
  | Some (on_since, secs, cyc) =>
      let '(ts, state) := ev in
      match start_dt with
      | None => None
      | Some sd =>
          if (ts <? sd)%Z then st else
          match end_dt with
          | None => None
          | Some ed =>
              if (ed <? ts)%Z then st
              else if String.eqb state "ON" then
                match on_since with
                | None => Some (Some ts, secs, cyc)
                | Some _ => st
                end
              else if String.eqb state "OFF" then
                match on_since with
                | Some os =>
                    let start_clamp := Z.max os sd in
                    let end_clamp := Z.min ts ed in
                    Some (None,
                          (if (start_clamp <? end_clamp)%Z
                           then secs + total_seconds (end_clamp - start_clamp) else secs)%float,
                          S cyc)
                | None => st
                end
              else st
          end
      end
  end.

(** Method C: [None] when the loop raises. *)
Definition method_events (power_kw : float) (start_iso end_iso : string)
    (acts : list ActivityRow) : option (float * nat * float) :=
  match events_of acts with
  | [] => Some (0%float, O, 0%float)
  | evs =>
      let start_dt := parse_opt (Some start_iso) in
      let end_dt := parse_opt (Some end_iso) in
      match fold_left (event_step start_dt end_dt) (sort_events evs) (Some (None, 0%float, O)) with
      | None => None
      | Some (on_since, secs, ev_cycles) =>
          let closed :=
            match on_since with
            | None => Some secs
            | Some os =>
                match start_dt, end_dt with
                | Some sd, Some ed =>
                    let start_clamp := Z.max os sd in
                    Some (if (start_clamp <? ed)%Z
                          then (secs + total_seconds (ed - start_clamp))%float else secs)
                | _, _ => None
                end
            end in
          match closed with
          | None => None
          | Some ev_on_seconds =>
              let ev_hours := (ev_on_seconds / 3600)%float in
              if PrimFloat.ltb 0 ev_hours
              then Some ((ev_hours * power_kw)%float, ev_cycles, ev_hours)
              else Some (0%float, O, 0%float)
          end
      end
  end.

(** Steps 1 and 2 for one sensor: [(energy_kwh, cycles, on_hours)], or
    [None] when the event loop raises. *)
Definition process_sensor (power_kw : float) (start_iso end_iso : string)
    (acts : list ActivityRow) : option (float * nat * float) :=
  let explicit_energy_acts := filter (fun a => RowKind_eqb (classify a) ExplicitRow) acts in
  let duration_acts := filter (fun a => RowKind_eqb (classify a) DurationRow) acts in
  let event_acts := filter (fun a => RowKind_eqb (classify a) EventRow) acts in
  match explicit_energy_acts with
  | _ :: _ => Some (method_explicit explicit_energy_acts)
  | [] =>
      match duration_acts with
      | _ :: _ => Some (method_duration power_kw start_iso end_iso duration_acts)
      | [] =>
          match event_acts with
          | _ :: _ =>
              if PrimFloat.ltb 0 power_kw then method_events power_kw start_iso end_iso event_acts
              else Some (0%float, O, 0%float)
          | [] => Some (0%float, O, 0%float)
          end
      end
  end.

(** The per-group body of the summary loop ([for canonical_id, acts in
    by_canonical_id.items()]); [None] is an exception escaping the loop. *)
Definition summary_step (smap : list (PyKey * SensorMeta)) (start_iso end_iso : string)
    (acc : option (float * list SensorSummary.t)) (g : option PyKey * list ActivityRow)
    : option (float * list SensorSummary.t) :=
  match acc with
  | None => None
  | Some (total_emissions, summaries) =>
      let '(canonical_id, acts) := g in
      match canonical_id with
      | None => acc
      | Some cid =>
          match al_get PyKey_eqb cid smap with
          | None => acc
          | Some meta =>
              let power_kw := float_or_zero (Some (meta_power_kW meta)) in
              let factor := float_or_zero (Some (meta_emission_factor meta)) in
              match process_sensor power_kw start_iso end_iso acts with
              | None => None
              | Some (energy_kwh, cycles, on_hours) =>
                  let emissions_kg := (energy_kwh * factor)%float in
                  Some ((total_emissions + emissions_kg)%float,
                        (summaries ++
                         [SensorSummary.mk (meta_id meta) (meta_device_id meta)
                            (py_round energy_kwh 6) (py_round emissions_kg 6)
                            cycles (py_round on_hours 4) (meta_row meta)])%list)
              end
          end
      end
  end.

(** [compute_sensor_emissions], given the rows of the company's sensors and
    the activity rows the window query returned; [None] when it raises. *)
Definition compute_sensor_emissions (sensors : list SensorRow) (activities : list ActivityRow)
    (start_iso end_iso : string) : option (float * list SensorSummary.t) :=
  match sensors with
  | [] => Some (0%float, [])
  | _ =>
      let sensor_map := build_sensor_map sensors in
      let by_canonical_id := group_by_canonical sensor_map activities in
      match fold_left (summary_step sensor_map start_iso end_iso) by_canonical_id
              (Some (0%float, [])) with
      | None => None
      | Some (total_emissions, summaries) => Some (py_round total_emissions 6, summaries)
      end
  end.

End Reconcile.

(** A [_parse_iso] restricted to the [YYYY-MM-DDTHH:MM:SS] form, which
    [datetime.fromisoformat] reads as a naive datetime. *)
Definition digit_val (c : Ascii.ascii) : option Z :=
  let n := Ascii.nat_of_ascii c in
  if (48 <=? n)%nat && (n <=? 57)%nat then Some (Z.of_nat (n - 48)) else None.

Fixpoint digits_val (s : string) (acc : Z) : option Z :=
  match s with
  | EmptyString => Some acc
  | String c s' => match digit_val c with Some d => digits_val s' (acc * 10 + d)%Z | None => None end
  end.

Definition is_leap (y : Z) : bool :=
  (Z.eqb (y mod 4) 0 && negb (Z.eqb (y mod 100) 0)) || Z.eqb (y mod 400) 0.

Definition days_in_month (y m : Z) : Z :=
  if Z.eqb m 2 then (if is_leap y then 29 else 28)
  else if Z.eqb m 4 || Z.eqb m 6 || Z.eqb m 9 || Z.eqb m 11 then 30 else 31.

(** Days since 1970-01-01 of a proleptic Gregorian date. *)
Definition days_from_civil (y m d : Z) : Z :=
  let y' := if (m <=? 2)%Z then (y - 1)%Z else y in
  let era := (y' / 400)%Z in
  let yoe := (y' - era * 400)%Z in
  let doy := ((153 * ((m + 9) mod 12) + 2) / 5 + d - 1)%Z in
  let doe := (yoe * 365 + yoe / 4 - yoe / 100 + doy)%Z in
  (era * 146097 + doe - 719468)%Z.

Definition parse_iso_basic (s : string) : option Z :=
  let field i n := digits_val (substring i n s) 0 in
  if (Nat.eqb (String.length s) 19
      && String.eqb (substring 4 1 s) "-" && String.eqb (substring 7 1 s) "-"
      && String.eqb (substring 10 1 s) "T" && String.eqb (substring 13 1 s) ":"
      && String.eqb (substring 16 1 s) ":")%bool
  then
    match field 0 4, field 5 2, field 8 2, field 11 2, field 14 2, field 17 2 with
    | Some y, Some mo, Some d, Some h, Some mi, Some se =>
        if ((1 <=? y) && (1 <=? mo) && (mo <=? 12) && (1 <=? d) && (d <=? days_in_month y mo)
            && (h <=? 23) && (mi <=? 59) && (se <=? 59))%Z
        then Some ((((days_from_civil y mo d * 24 + h) * 60 + mi) * 60 + se) * 1000000)%Z
        else None
    | _, _, _, _, _, _ => None
    end
  else None.

(** A sensor row carries an identifier as its id or as its device id. *)
Definition carries (s : SensorRow) (k : PyKey) : Prop :=
  s_id s = Some k \/ s_device_id s = Some k.

(** The rows [by_canonical_id] files under [cid]. *)
Definition in_group (smap : list (PyKey * SensorMeta)) (cid : option PyKey) (a : ActivityRow)
    : bool :=
  match row_canonical smap a with Some c => OKey_eqb c cid | None => false end.

(** The hours of the intersection of a row's session with the window. *)
Definition window_overlap_hours (parse_iso : string -> option Z) (start_iso end_iso : string)
    (a : ActivityRow) : option float :=
  match parse_opt parse_iso (session_start_of a), parse_opt parse_iso (session_end_of a),
        parse_iso start_iso, parse_iso end_iso with
  | Some s_dt, Some e_dt, Some w_start, Some w_end =>
      let lo := Z.max s_dt w_start in
      let hi := Z.min e_dt w_end in
      Some (if (lo <? hi)%Z then (total_seconds (hi - lo) / 3600)%float else 0%float)
  | _, _, _, _ => None
  end.

(** Sample rows for the reconciliation: sensor 1 ("dev-1", 2 kW, factor 0.5). *)
Definition sensor_one : SensorRow :=
  mkSensorRow (Some (KInt 1)) (Some (KStr "dev-1")) (Some 2%float) (Some 0.5%float).

Definition energy_row : ActivityRow :=
  {| a_device_id := Some (KInt 1); a_sensor_id := None; a_device := None; a_deviceId := None;
     a_energy_kwh := Some (Num 10%float); a_kwh := None; a_energy := None; a_hours := None;
     a_session_start := None; a_start := None; a_timestamp := None; a_session_end := None;
     a_end := None; a_state := None; a_time := None; a_created_at := None |}.

Definition event_row (state ts : string) : ActivityRow :=
  {| a_device_id := Some (KStr "dev-1"); a_sensor_id := None; a_device := None;
     a_deviceId := None; a_energy_kwh := None; a_kwh := None; a_energy := None;
     a_hours := None; a_session_start := None; a_start := None; a_timestamp := Some ts;
     a_session_end := None; a_end := None; a_state := Some state; a_time := None;
     a_created_at := None |}.

Definition session_row (hours : option PyNum) (ss se : string) : ActivityRow :=
  {| a_device_id := Some (KInt 1); a_sensor_id := None; a_device := None; a_deviceId := None;
     a_energy_kwh := None; a_kwh := None; a_energy := None; a_hours := hours;
     a_session_start := Some ss; a_start := None; a_timestamp := None;
     a_session_end := Some se; a_end := None; a_state := None; a_time := None;
     a_created_at := None |}.


(** ** Unit lookups and tonne conversion ([api/emission_factors.py]) *)

(** [get_factor_for_unit]; [unit] is a row's [unit] value, a string or [None]. *)
Definition get_factor_for_unit (w : FactorWorld) (unit : option string) : option float :=
  match unit with
  | Some u => if String.eqb u "" then None
              else Dict.get (normalize_unit u) (load_cached_factors w)
  | None => None
  end.

Definition tonne_units : list string := ["t"; "tonne"; "tonnes"; "tco2"; "tco2e"].

(** [convert_to_kg] *)
Definition convert_to_kg (quantity : option float) (unit : option string) : option float :=
  match quantity, unit with
  | None, _ => None
  | _, None => None
  | Some q, Some u =>
      if in_list (normalize_unit u) tonne_units then Some (q * 1000)%float else None
  end.

(** One line of the fallback of [get_company_item_emissions] ([main.py]):
    the [factor] and [emissions] reported for an invoice line with quantity
    [qty] ([None] when it is not a number), unit [unit] and the truthiness
    of its [is_positive] field. *)
Definition item_emissions_fallback (w : FactorWorld) (qty : option float)
    (unit : option string) (is_positive : bool) : option float * option float :=
  let qty_for_calc :=
    match convert_to_kg qty unit with Some converted => Some converted | None => qty end in
  match get_factor_for_unit w unit with
  | Some cached =>
      let emissions := option_map (fun q => (q * cached)%float) qty_for_calc in
      let emissions :=
        if is_positive then option_map (fun e => (- PrimFloat.abs e)%float) emissions
        else emissions in
      (Some cached, emissions)
  | None => (None, None)
  end.

(** ** Custom emission factors ([EmissionFactorDatabase]) *)

(** [d.update(u)] *)
Definition dict_update {V} (d u : list (string * V)) : list (string * V) :=
  fold_left (fun acc kv => Dict.set (fst kv) (snd kv) acc) u d.

(** The merge loop of [_load_custom_factors] over
    [config['emission_factors'].items()]. *)
Definition _load_custom_factors (emission_factors custom : FactorTable) : FactorTable :=
  fold_left (fun ef af =>
               match Dict.get (fst af) ef with
               | Some existing => Dict.set (fst af) (dict_update existing (snd af)) ef
               | None => Dict.set (fst af) (snd af) ef
               end) custom emission_factors.

(** [EmissionFactorDatabase(config_path).emission_factors]: [custom] is the
    [emission_factors] section of the YAML config, a mapping from activity
    keys to mappings of numbers; [None] covers no path, no file, a failed
    read or parse, and a config without that section. *)
Definition emission_factor_database (custom : option FactorTable) : FactorTable :=
  match custom with
  | Some c => _load_custom_factors default_factors c
  | None => default_factors
  end.

(** [calculate_intensity_metrics]. [float(n)] of a Python int is correctly
    rounded and raises [OverflowError] when the result is out of range:
    [int_to_float] gives [None] then, as does the whole call. *)
Definition int_to_float (n : Z) : option float :=
  match binary_normalize 53 1024 n 0 false with
  | S754_infinity _ => None
  | f => Some (SF2Prim f)
  end.

Definition calculate_intensity_metrics (total_emissions : float) (revenue : option float)
    (employees : option Z) (production_volume : option float)
    : option (list (string * float)) :=
  let metrics : list (string * float) := [] in
  let metrics :=
    match revenue with
    | Some r => if float_truthy r && PrimFloat.ltb 0 r
                then Dict.set "emissions_per_revenue" (total_emissions / r)%float metrics
                else metrics
    | None => metrics
    end in
  let metrics :=
    match employees with
    | Some n =>
        if negb (Z.eqb n 0) && (0 <? n)%Z then
          option_map (fun e => Dict.set "emissions_per_employee" (total_emissions / e)%float metrics)
            (int_to_float n)
        else Some metrics
    | None => Some metrics
    end in
  match metrics with
  | None => None
  | Some metrics =>
      Some (match production_volume with
            | Some p => if float_truthy p && PrimFloat.ltb 0 p
                        then Dict.set "emissions_per_unit" (total_emissions / p)%float metrics
                        else metrics
            | None => metrics
            end)
  end.

(** ** Upload file names ([main.py], [sanitize_filename] and [upload_file]) *)

(** Names are lists of Unicode code points. *)
Section FileNames.
(** [unicodedata.normalize('NFKD', .)] *)
Variable nfkd : list Z -> list Z.
Local Open Scope Z_scope.

(** The ASCII characters [str.isspace] accepts (after the ASCII encoding no
    other character is left). *)
Definition py_isspace_ascii (c : Z) : bool :=
  ((9 <=? c) && (c <=? 13)) || ((28 <=? c) && (c <=? 32)).

Fixpoint lstrip_by (p : Z -> bool) (s : list Z) : list Z :=
  match s with
  | c :: s' => if p c then lstrip_by p s' else s
  | [] => []
  end.

(** [s.strip()] *)
Definition strip_cps (s : list Z) : list Z :=
  rev (lstrip_by py_isspace_ascii (rev (lstrip_by py_isspace_ascii s))).

(** The class [A-Za-z0-9._-]. *)
Definition safe_name_char (c : Z) : bool :=
  ((65 <=? c) && (c <=? 90)) || ((97 <=? c) && (c <=? 122)) || ((48 <=? c) && (c <=? 57))
  || (c =? 46) || (c =? 95) || (c =? 45).

Definition unnamed : list Z := [117; 110; 110; 97; 109; 101; 100].

(** [sanitize_filename]; [None] is a missing name. *)
Definition sanitize_filename (name : option (list Z)) : list Z :=
  match name with
  | None | Some [] => unnamed
  | Some cps =>
      (* name.encode('ascii', 'ignore').decode('ascii') *)
      let n := filter (fun c => c <? 128) (nfkd cps) in
      (* name.strip().replace(' ', '-') *)
      let n := map (fun c => if c =? 32 then 45 else c) (strip_cps n) in
      (* re.sub(r"[^A-Za-z0-9._-]", '', name) *)
      let n := filter safe_name_char n in
      (* name.lstrip('.') *)
      let n := lstrip_by (fun c => c =? 46) n in
      match n with [] => unnamed | _ => n end
  end.

(** [name.rfind('.')] *)
Fixpoint rfind_dot (s : list Z) (i : nat) (found : option nat) : option nat :=
  match s with
  | [] => found
  | c :: s' => rfind_dot s' (S i) (if c =? 46 then Some i else found)
  end.

(** The split of [PurePosixPath(name)] into [stem] and [suffix] for a name
    without '/' (as in Python 3.12: the last dot, if it is neither the first
    nor the last character). *)
Definition suffix_index (name : list Z) : option nat :=
  match rfind_dot name 0 None with
  | Some i => if (0 <? i)%nat && (i <? length name - 1)%nat then Some i else None
  | None => None
  end.

Definition path_stem (name : list Z) : list Z :=
  match suffix_index name with Some i => firstn i name | None => name end.

Definition path_suffix (name : list Z) : list Z :=
  match suffix_index name with Some i => skipn i name | None => [] end.

(** [str(n)] of a Python int. *)
Fixpoint digits_rev (fuel : nat) (n : Z) : list Z :=
  match fuel with
  | O => []
  | S f => (48 + n mod 10) :: (if n <? 10 then [] else digits_rev f (n / 10))
  end.

Definition py_int_str (z : Z) : list Z :=
  let digits n := rev (digits_rev (S (Z.to_nat (Z.log2 n))) n) in
  if z <? 0 then 45 :: digits (- z) else digits z.

(** The storage path [upload_file] writes to, for the upload's file name and
    the hex string [token] of [secrets.token_hex(4)]; [None] is the 400
    answer to a missing or empty file name. *)
Definition upload_storage_path (company_id : Z) (filename : option (list Z)) (token : list Z)
    : option (list Z) :=
  match filename with
  | None | Some [] => None
  | Some _ =>
      let base_name := sanitize_filename filename in
      let safe_name := (path_stem base_name ++ [45] ++ token ++ path_suffix base_name)%list in
      Some (py_int_str company_id ++ [47] ++ safe_name)%list
  end.

End FileNames.

(** ** Ending a sensor session ([main.py], [end_session]) *)

(** A column value as the Supabase client returns it. *)
Inductive DbVal := VNull | VKey (k : PyKey) | VStr (s : string) | VNum (x : float).

Definition DbVal_eqb (a b : DbVal) : bool :=
  match a, b with
  | VNull, VNull => true
  | VKey x, VKey y => PyKey_eqb x y
  | VStr x, VStr y => String.eqb x y
  | VNum x, VNum y => PrimFloat.eqb x y
  | _, _ => false
  end.

Definition DbVal_truthy (v : DbVal) : bool :=
  match v with
  | VNull => false
  | VKey k => PyKey_truthy k
  | VStr s => negb (String.eqb s "")
  | VNum x => float_truthy x
  end.

(** A row, as the dict the client returns. *)
Definition DbRow := list (string * DbVal).

(** [row.get(k)] *)
Definition row_get (k : string) (r : DbRow) : DbVal :=
  match Dict.get k r with Some v => v | None => VNull end.

(** [table.select(', '.join(cols)).eq(col, v).execute().data] *)
Definition select_eq (cols : list string) (col : string) (v : DbVal) (rows : list DbRow)
    : list DbRow :=
  map (filter (fun kv => in_list (fst kv) cols))
    (filter (fun r => DbVal_eqb (row_get col r) v) rows).

(** [table.update({col: v}).eq(key, kv)] *)
Definition update_eq (col : string) (v : DbVal) (key : string) (kv : DbVal) (rows : list DbRow)
    : list DbRow :=
  map (fun r => if DbVal_eqb (row_get key r) kv then Dict.set col v r else r) rows.

Record SessionTables := mkSessionTables {
  sensors_rows : list DbRow;
  activity_rows : list DbRow
}.

(** [end_session]: the HTTP status of the answer and the tables after the
    call. [parse_iso] is [datetime.fromisoformat] (microseconds); [now] is
    [datetime.utcnow().isoformat()]; [fetch_error] and [update_error] are the
    [error] attributes of the two query results. Every [HTTPException] raised
    in the [try] is caught by its [except Exception] and re-raised as 500. *)
Definition end_session (parse_iso : string -> option Z) (db : SessionTables)
    (fetch_error update_error : bool) (device_id : DbVal) (now : string)
    : Z * SessionTables :=
  if negb (DbVal_truthy device_id) then (500%Z, db) else
  if fetch_error then (500%Z, db) else
  match select_eq ["id"] "device_id" device_id (sensors_rows db) with
  | [] => (500%Z, db)
  | row :: _ =>
      let sensor_id := row_get "id" row in
      let startTime := row_get "session_start" row in
      if negb (DbVal_truthy startTime) then (500%Z, db) else
      match startTime with
      | VStr st =>
          match parse_iso now, parse_iso st with
          | Some n, Some s =>
              let hours := (total_seconds (n - s) / 3600)%float in
              let db1 := mkSessionTables (sensors_rows db)
                           (activity_rows db ++
                            [[("device_id", sensor_id); ("hours", VNum hours);
                              ("session_start", VStr st); ("session_end", VStr now)]]) in
              if update_error then (500%Z, db1)
              else (200%Z, mkSessionTables
                              (update_eq "session_start" VNull "id" sensor_id (sensors_rows db1))
                              (activity_rows db1))
          | _, _ => (500%Z, db)
          end
      | _ => (500%Z, db)
      end
  end.


(** An ASCII character other than the separators \x1c-\x1f: on text made
    of these, [lower] and [strip] agree with Python's [str.lower] and
    [str.strip]. *)
Definition plain_ascii (c : Ascii.ascii) : bool :=
  let n := nat_of_ascii c in
  (n <? 128)%nat && negb ((28 <=? n)%nat && (n <=? 31)%nat).

(** Sample inputs for the properties below: a cache file with two units, a
    world whose Ember API reports 13 gCO2/kWh for Sweden, and an activity
    row from a device no sensor carries. *)
Definition sample_factor_world : FactorWorld :=
  mkFactorWorld (Some [("kWh", 0.25%float); ("t CO2e", 1.5%float)]) true "" (fun _ => None)
    (fun _ => None).

Definition ember_world : FactorWorld :=
  mkFactorWorld None true "https://factors.example/eu.json"
    (fun code => match code with Some "SWE" => Some 13%float | _ => None end)
    (fun _ => None).

Definition stray_row : ActivityRow :=
  {| a_device_id := Some (KStr "dev-9"); a_sensor_id := None; a_device := None;
     a_deviceId := None; a_energy_kwh := Some (Num 7%float); a_kwh := None; a_energy := None;
     a_hours := None; a_session_start := None; a_start := None; a_timestamp := None;
     a_session_end := None; a_end := None; a_state := None; a_time := None;
     a_created_at := None |}.


(** * Properties *)

(** ** Factor lookup *)

Lemma default_factors_no_empty_key : no_empty_key default_factors.
Proof.
  intros a m H. unfold default_factors in H. simpl in H.
  repeat match type of H with
         | context [if ?b then _ else _] => destruct b
         end;
  try discriminate; injection H as <-; reflexivity.
Qed.

(** Claim C1: for a table whose activity maps have no empty-string key
    (the built-in table is one), [get_emission_factor] returns the
    sub-type entry when the sub-type is a key, else the country entry when
    the country is a key, else the activity's "default" entry (the global
    1.0 if there is none), and 1.0 for an activity absent from the table. *)
Theorem get_emission_factor_lookup_order (tbl : FactorTable) (activity_key country : string)
    (sub_type : option string) (Hwf : no_empty_key tbl) :
  get_emission_factor tbl activity_key country sub_type
  = getFactor_spec tbl activity_key country sub_type.
Proof.
  unfold get_emission_factor, getFactor_spec.
  destruct (Dict.get activity_key tbl) as [factors|] eqn:Ha; [|reflexivity].
  destruct sub_type as [s|]; cbn [str_truthy negb].
  - destruct (String.eqb s "") eqn:Es; cbn [negb].
    + apply String.eqb_eq in Es; subst s. rewrite (Hwf _ _ Ha).
      destruct (Dict.get country factors), (Dict.get "default" factors); reflexivity.
    + destruct (Dict.get s factors), (Dict.get country factors),
        (Dict.get "default" factors); reflexivity.
  - destruct (Dict.get country factors), (Dict.get "default" factors); reflexivity.
Qed.

Lemma get_emission_factor_lookup_order_witness :
  no_empty_key default_factors
  /\ get_emission_factor default_factors "transport_freight" "SE" (Some "truck")
     = getFactor_spec default_factors "transport_freight" "SE" (Some "truck").
Proof.
  split; [exact default_factors_no_empty_key|].
  apply get_emission_factor_lookup_order. exact default_factors_no_empty_key.
Defined.

Example get_emission_factor_truck_any_country :
  get_emission_factor default_factors "transport_freight" "SE" (Some "truck") = 0.097%float
  /\ get_emission_factor default_factors "electricity" "SE" None = 0.013%float
  /\ get_emission_factor default_factors "electricity" "US" None = 0.500%float
  /\ get_emission_factor default_factors "other" "SE" None = 1.0%float.
Proof. repeat split; reflexivity. Qed.

(** ** Filling a data point *)

Definition sample_point (ef co2 : option float) : EmissionDataPoint :=
  mkDataPoint 739283 "acme" ELECTRICITY SCOPE_2 1000%float "kWh" ef co2 "SE" false.

(** Claim C2 fails: a set [co2_emissions] does not stop [emission_factor]
    from being filled, since the two fields are checked independently. *)
Lemma calculate_for_data_point_fills_factor_when_co2_set :
  ~ (forall dp, co2_emissions dp <> None ->
       emission_factor (calculate_for_data_point default_calculator dp) = emission_factor dp
       /\ co2_emissions (calculate_for_data_point default_calculator dp) = co2_emissions dp).
Proof.
  intros H.
  destruct (H (sample_point None (Some 5%float))) as [Hef _]; [discriminate|].
  vm_compute in Hef. discriminate.
Qed.

(** Claim C2, as amended: each field is filled only when it is falsy, and
    independently of the other: a nonzero [co2_emissions] is kept, a nonzero
    [emission_factor] is kept, a falsy [co2_emissions] is computed, a falsy
    [emission_factor] is looked up whatever [co2_emissions] holds; and for
    every record a second call changes nothing. *)
Theorem calculate_for_data_point_keeps_set_fields (c : CarbonCalculator)
    (dp : EmissionDataPoint) :
  (forall v, co2_emissions dp = Some v -> float_truthy v = true ->
     co2_emissions (calculate_for_data_point c dp) = Some v)
  /\ (forall w, emission_factor dp = Some w -> float_truthy w = true ->
        emission_factor (calculate_for_data_point c dp) = Some w)
  /\ (opt_truthy (co2_emissions dp) = false ->
        co2_emissions (calculate_for_data_point c dp)
        = Some (calculate_emissions c (activity_type dp) (amount dp) (unit dp)
                  (country_code dp) None))
  /\ (opt_truthy (emission_factor dp) = false ->
        emission_factor (calculate_for_data_point c dp)
        = Some (get_emission_factor (emission_db c) (ActivityType_value (activity_type dp))
                  (country_code dp) None))
  /\ calculate_for_data_point c (calculate_for_data_point c dp)
     = calculate_for_data_point c dp.
Proof.
  split; [|split; [|split; [|split]]].
  - intros v Hco2 Hv. unfold calculate_for_data_point; simpl.
    rewrite Hco2; simpl. rewrite Hv. reflexivity.
  - intros w Hw Hwt. unfold calculate_for_data_point; simpl.
    rewrite Hw; simpl. rewrite Hwt. reflexivity.
  - intros Hf. unfold calculate_for_data_point; simpl. rewrite Hf. reflexivity.
  - intros Hf. unfold calculate_for_data_point; simpl. rewrite Hf. reflexivity.
  - destruct dp as [d cid act sc am un ef co cc vf].
    unfold calculate_for_data_point, set_calculated; simpl.
    destruct (opt_truthy ef) eqn:Eef, (opt_truthy co) eqn:Eco; simpl;
      repeat rewrite Eef; repeat rewrite Eco; simpl;
      repeat match goal with
             | |- context [negb (float_truthy ?x)] => destruct (float_truthy x); simpl
             end; reflexivity.
Qed.

Lemma calculate_for_data_point_keeps_set_fields_witness :
  co2_emissions (calculate_for_data_point default_calculator
                   (sample_point None (Some 5%float))) = Some 5%float
  /\ emission_factor (calculate_for_data_point default_calculator
                        (sample_point None (Some 5%float)))
     = Some (get_emission_factor default_factors "electricity" "SE" None)
  /\ calculate_for_data_point default_calculator
       (calculate_for_data_point default_calculator (sample_point None (Some 5%float)))
     = calculate_for_data_point default_calculator (sample_point None (Some 5%float)).
Proof.
  destruct (calculate_for_data_point_keeps_set_fields default_calculator
              (sample_point None (Some 5%float))) as [H1 [_ [_ [H4 H5]]]].
  split; [apply H1; reflexivity|split; [apply H4; reflexivity|exact H5]].
Defined.

(** ** Period summary *)

Lemma in_period_spec (company : string) (period_start period_end : Z)
    (dp : EmissionDataPoint) :
  in_period company period_start period_end dp = true
  <-> company_id dp = company /\ (period_start <= date dp <= period_end)%Z.
Proof.
  unfold in_period. rewrite !andb_true_iff, String.eqb_eq, !Z.leb_le. tauto.
Qed.

(** Claim C3: the summary depends on the records only through those of
    the company dated within [period_start, period_end] (both ends
    inclusive), it counts exactly those, and [total_emissions] is
    [scope_1_total + scope_2_total + scope_3_total]. *)
Theorem generate_summary_filter_and_total (c : CarbonCalculator)
    (data_points : list EmissionDataPoint) (company : string)
    (period_start period_end : Z) (previous : option float) (s : EmissionSummary.t)
    (H : generate_summary c data_points company period_start period_end previous = Some s) :
  (forall data_points',
     filter (in_period company period_start period_end) data_points'
     = filter (in_period company period_start period_end) data_points ->
     generate_summary c data_points' company period_start period_end previous = Some s)
  /\ (forall dp, in_period company period_start period_end dp = true
                 <-> company_id dp = company /\ (period_start <= date dp <= period_end)%Z)
  /\ EmissionSummary.data_points_count s
     = length (filter (in_period company period_start period_end) data_points)
  /\ EmissionSummary.total_emissions s
     = (EmissionSummary.scope_1_total s + EmissionSummary.scope_2_total s
        + EmissionSummary.scope_3_total s)%float.
Proof.
  split; [|split; [|split]].
  - intros dps' Heq. unfold generate_summary. rewrite Heq. exact H.
  - intros dp. apply in_period_spec.
  - unfold generate_summary, summarize_points in H.
    destruct (_check_compliance_status _ _ _ _); [|discriminate].
    injection H as <-. simpl. unfold calculate_bulk. apply length_map.
  - unfold generate_summary, summarize_points in H.
    destruct (_check_compliance_status _ _ _ _); [|discriminate].
    injection H as <-. reflexivity.
Qed.

Definition sample_records : list EmissionDataPoint :=
  [ mkDataPoint 739283 "acme" ELECTRICITY SCOPE_2 1000%float "kWh" None None "SE" true;
    mkDataPoint 739300 "acme" DIESEL SCOPE_1 100%float "l" None None "SE" false;
    mkDataPoint 739400 "acme" ELECTRICITY SCOPE_2 50%float "kWh" None None "SE" false;
    mkDataPoint 739290 "other" ELECTRICITY SCOPE_2 50%float "kWh" None None "SE" false ].

Lemma generate_summary_filter_and_total_witness :
  match generate_summary default_calculator sample_records "acme" 739283 739310 None with
  | Some s =>
      EmissionSummary.data_points_count s = 2%nat
      /\ EmissionSummary.total_emissions s
         = (EmissionSummary.scope_1_total s + EmissionSummary.scope_2_total s
            + EmissionSummary.scope_3_total s)%float
  | None => False
  end.
Proof.
  destruct (generate_summary default_calculator sample_records "acme" 739283 739310 None)
    as [s|] eqn:E.
  - destruct (generate_summary_filter_and_total default_calculator sample_records "acme"
                739283 739310 None s E) as [_ [_ [Hn Ht]]].
    split; [rewrite Hn; reflexivity | exact Ht].
  - vm_compute in E. discriminate.
Defined.

(** ** Compliance *)

(** Claim C4: with the three thresholds configured, the status is WARNING
    exactly when some scope total is strictly above its threshold, and
    COMPLIANT otherwise; with the default thresholds a scope 1 total of
    exactly 100000 (other scopes within bounds) is COMPLIANT. *)
Theorem check_compliance_status_iff (c : CarbonCalculator) (t1 t2 t3 : float)
    (H1 : Dict.get "scope_1_warning" (thresholds c) = Some t1)
    (H2 : Dict.get "scope_2_warning" (thresholds c) = Some t2)
    (H3 : Dict.get "scope_3_warning" (thresholds c) = Some t3) :
  (forall scope_1 scope_2 scope_3,
     _check_compliance_status c scope_1 scope_2 scope_3
     = Some (if PrimFloat.ltb t1 scope_1 || PrimFloat.ltb t2 scope_2
                || PrimFloat.ltb t3 scope_3
             then WARNING else COMPLIANT))
  /\ (forall scope_2 scope_3,
        PrimFloat.ltb 50000 scope_2 = false -> PrimFloat.ltb 200000 scope_3 = false ->
        _check_compliance_status default_calculator 100000 scope_2 scope_3 = Some COMPLIANT).
Proof.
  split.
  - intros s1 s2 s3. unfold _check_compliance_status. rewrite H1, H2, H3.
    destruct (PrimFloat.ltb t1 s1), (PrimFloat.ltb t2 s2), (PrimFloat.ltb t3 s3);
      reflexivity.
  - intros s2 s3 E2 E3. unfold _check_compliance_status; simpl.
    rewrite E2, E3. reflexivity.
Qed.

Lemma check_compliance_status_iff_witness :
  _check_compliance_status default_calculator 100000 0 0 = Some COMPLIANT
  /\ _check_compliance_status default_calculator 100000.5 0 0 = Some WARNING.
Proof.
  split.
  - rewrite (proj1 (check_compliance_status_iff default_calculator 100000 50000 200000
                      eq_refl eq_refl eq_refl)).
    reflexivity.
  - rewrite (proj1 (check_compliance_status_iff default_calculator 100000 50000 200000
                      eq_refl eq_refl eq_refl)).
    reflexivity.
Defined.

(** ** Activity breakdown against the scope totals *)

Section ExactSums.
Context {A : Type} (add : A -> A -> A) (zero : A) (inj : float -> A).
Hypothesis add_assoc : forall x y z, add x (add y z) = add (add x y) z.
Hypothesis add_comm : forall x y, add x y = add y x.
Hypothesis add_zero_l : forall x, add zero x = x.

#[local] Instance add_Associative : Associative eq add := add_assoc.
#[local] Instance add_Commutative : Commutative eq add := add_comm.
#[local] Instance add_Unit : Unit eq add zero.
Proof. split; intros x; [apply add_zero_l | rewrite add_comm; apply add_zero_l]. Qed.
#[local] Instance add_Proper : Proper (eq ==> eq ==> eq) add.
Proof. repeat intro; subst; reflexivity. Qed.

Let sumA (l : list A) : A := fold_right add zero l.

(** What a data point adds to the activity breakdown, and to a scope. *)
Let contrib (dp : EmissionDataPoint) : A :=
  match co2_emissions dp with
  | Some v => if float_truthy v then inj v else zero
  | None => zero
  end.

Let contrib_scope (s : EmissionScope) (dp : EmissionDataPoint) : A :=
  match co2_emissions dp with
  | Some v => if EmissionScope_eqb (scope dp) s && float_truthy v then inj v else zero
  | None => zero
  end.

Lemma exact_fold_left_add (l : list A) (a : A) : fold_left add l a = add a (sumA l).
Proof.
  revert a; induction l as [|x l IH]; intros a; simpl.
  - aac_reflexivity.
  - rewrite IH. aac_reflexivity.
Qed.

Lemma exact_sum_with (l : list float) (a : A) :
  fold_left (fun acc x => add acc (inj x)) l a = add a (sumA (map inj l)).
Proof.
  revert a; induction l as [|x l IH]; intros a; simpl.
  - aac_reflexivity.
  - rewrite IH. aac_reflexivity.
Qed.

Lemma exact_set_existing (k : string) (p x : A) (d : list (string * A)) :
  Dict.get k d = Some p ->
  sumA (Dict.values (Dict.set k (add p x) d)) = add (sumA (Dict.values d)) x.
Proof.
  induction d as [|[k' v'] d IH]; simpl; [discriminate|].
  destruct (String.eqb k k'); simpl.
  - intros E; injection E as ->. aac_reflexivity.
  - intros E. rewrite (IH E). aac_reflexivity.
Qed.

Lemma exact_set_new (k : string) (x : A) (d : list (string * A)) :
  Dict.get k d = None ->
  sumA (Dict.values (Dict.set k x d)) = add (sumA (Dict.values d)) x.
Proof.
  induction d as [|[k' v'] d IH]; simpl.
  - intros _. aac_reflexivity.
  - destruct (String.eqb k k'); [discriminate|]. simpl.
    intros E. rewrite (IH E). aac_reflexivity.
Qed.

Lemma exact_activity_step (acc : list (string * A)) (dp : EmissionDataPoint) :
  sumA (Dict.values (activity_step_with add zero inj acc dp))
  = add (sumA (Dict.values acc)) (contrib dp).
Proof.
  unfold activity_step_with, contrib.
  destruct (co2_emissions dp) as [v|]; [|aac_reflexivity].
  destruct (float_truthy v); [|aac_reflexivity].
  destruct (Dict.get (ActivityType_value (activity_type dp)) acc) as [p|] eqn:E.
  - apply exact_set_existing; exact E.
  - rewrite exact_set_new by exact E. aac_reflexivity.
Qed.

Lemma exact_activity_fold (dps : list EmissionDataPoint) (acc : list (string * A)) :
  sumA (Dict.values (fold_left (activity_step_with add zero inj) dps acc))
  = add (sumA (Dict.values acc)) (sumA (map contrib dps)).
Proof.
  revert acc; induction dps as [|dp dps IH]; intros acc; simpl.
  - aac_reflexivity.
  - rewrite IH, exact_activity_step. aac_reflexivity.
Qed.

Lemma exact_scope_sum (s : EmissionScope) (dps : list EmissionDataPoint) :
  sumA (map inj (scope_emissions s dps)) = sumA (map (contrib_scope s) dps).
Proof.
  induction dps as [|dp dps IH]; simpl; [reflexivity|].
  unfold contrib_scope at 1.
  destruct (co2_emissions dp) as [v|]; simpl.
  - destruct (EmissionScope_eqb (scope dp) s && float_truthy v); simpl;
      rewrite <- IH; [reflexivity | aac_reflexivity].
  - rewrite <- IH. aac_reflexivity.
Qed.

Lemma exact_contrib_split (dps : list EmissionDataPoint) :
  sumA (map contrib dps)
  = add (add (sumA (map (contrib_scope SCOPE_1) dps))
             (sumA (map (contrib_scope SCOPE_2) dps)))
        (sumA (map (contrib_scope SCOPE_3) dps)).
Proof.
  induction dps as [|dp dps IH]; simpl.
  - aac_reflexivity.
  - rewrite IH. unfold contrib, contrib_scope.
    destruct (co2_emissions dp) as [v|]; [|aac_reflexivity].
    destruct (float_truthy v), (scope dp); simpl; aac_reflexivity.
Qed.

(** Claim C10, as amended: when the additions are exact (any associative
    and commutative addition with a neutral element), the values of
    [emissions_by_activity] add up to [scope_1_total + scope_2_total +
    scope_3_total]: every counted record lands in exactly one scope bucket
    and one activity bucket.  The code performs both summations with
    float addition, grouped differently. *)
Theorem emissions_by_activity_sum_exact (dps : list EmissionDataPoint) :
  fold_left add (Dict.values (emissions_by_activity_with add zero inj dps)) zero
  = add (add (sum_with add zero inj (scope_emissions SCOPE_1 dps))
             (sum_with add zero inj (scope_emissions SCOPE_2 dps)))
        (sum_with add zero inj (scope_emissions SCOPE_3 dps)).
Proof.
  unfold emissions_by_activity_with, sum_with.
  rewrite exact_fold_left_add, exact_activity_fold, !exact_sum_with, !exact_scope_sum.
  simpl. rewrite exact_contrib_split. aac_reflexivity.
Qed.

End ExactSums.

Lemma emissions_by_activity_sum_exact_witness :
  fold_left Z.add
    (Dict.values (emissions_by_activity_with Z.add 0%Z (fun _ => 1%Z) sample_records)) 0%Z
  = Z.add (Z.add (sum_with Z.add 0%Z (fun _ => 1%Z) (scope_emissions SCOPE_1 sample_records))
                 (sum_with Z.add 0%Z (fun _ => 1%Z) (scope_emissions SCOPE_2 sample_records)))
          (sum_with Z.add 0%Z (fun _ => 1%Z) (scope_emissions SCOPE_3 sample_records)).
Proof.
  apply (emissions_by_activity_sum_exact Z.add 0%Z (fun _ => 1%Z)).
  - intros; lia.
  - intros; lia.
  - intros; lia.
Defined.

(** Three records, one per scope, whose co2 values are already set. *)
Definition rounding_records : list EmissionDataPoint :=
  [ mkDataPoint 739283 "acme" ELECTRICITY SCOPE_1 1%float "kWh" None (Some 0.1%float) "SE" false;
    mkDataPoint 739283 "acme" DIESEL SCOPE_2 1%float "l" None (Some 0.2%float) "SE" false;
    mkDataPoint 739283 "acme" DIESEL SCOPE_3 1%float "l" None (Some 0.3%float) "SE" false ].

(** Claim C10 fails with float arithmetic: the activity buckets add up to
    0.6 while [total_emissions] is 0.1 + 0.2 + 0.3 = 0.6000000000000001. *)
Lemma emissions_by_activity_sum_rounding :
  ~ (forall c dps company period_start period_end previous s,
       generate_summary c dps company period_start period_end previous = Some s ->
       py_sum (Dict.values (EmissionSummary.emissions_by_activity s))
       = EmissionSummary.total_emissions s).
Proof.
  intros H.
  specialize (H default_calculator rounding_records "acme" 739283%Z 739283%Z None).
  destruct (generate_summary default_calculator rounding_records "acme" 739283%Z 739283%Z None)
    as [s|] eqn:E.
  - specialize (H s eq_refl). vm_compute in E. injection E as <-.
    apply (f_equal (fun x => PrimFloat.eqb x 0.6)) in H.
    vm_compute in H. discriminate.
  - vm_compute in E. discriminate.
Qed.

(** ** Unit conversion *)

Ltac float_neq := let Hf := fresh in intro Hf; apply (f_equal Prim2SF) in Hf;
  vm_compute in Hf; congruence.

(** Claim C5 fails: spacing is not tolerated, ["M Wh"] is not recognised
    as megawatt-hours and the amount passes through unscaled. *)
Lemma convert_units_spacing_not_tolerated :
  _convert_units 1 "M Wh" <> 1000%float /\ _convert_units 1 "MWh" = 1000%float.
Proof. split; [float_neq | reflexivity]. Qed.

(** Claim C5, as amended: the unit is lower-cased and nothing else; the
    amount is scaled by the table row whose aliases contain it exactly
    (MWh x1000, GWh x1e6, liter /1000, tonne x1000, meter /1000, the base
    units x1) and returned unchanged for any other unit. *)
Theorem convert_units_alias_table (amount : float) (unit : string) :
  _convert_units amount unit = scale_by_table (lower unit) amount
  /\ _convert_units 1000 "l" = 1.0%float
  /\ _convert_units 1 "MWh" = 1000%float
  /\ _convert_units 5 "unknown_unit" = 5%float
  /\ _convert_units 1 "M Wh" = 1%float.
Proof.
  split; [|repeat split; reflexivity].
  unfold _convert_units, scale_by_table; simpl.
  repeat match goal with
         | |- context [if ?b then _ else _] => destruct b; simpl
         end; reflexivity.
Qed.

(** ** Factor cache refresh *)

(** With no configured source the cache is returned and left as it is. *)
Lemma refresh_cached_factors_no_sources (w : FactorWorld) :
  configured_sources w = [] -> refresh_cached_factors w = (w, load_cached_factors w).
Proof. intros E. unfold refresh_cached_factors. rewrite E. reflexivity. Qed.

Lemma refresh_loop_all_fail (w : FactorWorld) (sources : list string) :
  (forall code, ember_intensity w code = None) -> refresh_loop w sources = [].
Proof.
  intros Hf. unfold refresh_loop.
  assert (E : load_electricity_factors_from_api w = []).
  { unfold load_electricity_factors_from_api, ember_entities; simpl. rewrite !Hf. reflexivity. }
  rewrite E. induction sources as [|src sources IH]; [reflexivity|]. exact IH.
Qed.

(** When every request fails the cache is returned and left as it is. *)
Lemma refresh_cached_factors_all_fail (w : FactorWorld) :
  (forall code, ember_intensity w code = None) ->
  refresh_cached_factors w = (w, load_cached_factors w).
Proof.
  intros Hf. unfold refresh_cached_factors.
  destruct (configured_sources w) as [|src sources] eqn:E; [reflexivity|].
  rewrite refresh_loop_all_fail by exact Hf. reflexivity.
Qed.

Lemma odict_get_set_other (d : list (option string * float)) (k k' : option string)
    (v v' : float) :
  ODict.get k d = Some v -> ODict.get k' d = None -> ODict.get k (ODict.set k' v' d) = Some v.
Proof.
  induction d as [|[k0 v0] d IH]; simpl; [discriminate|].
  intros Hk Hk'. destruct (ODict.key_eqb k' k0); [discriminate|]. simpl.
  destruct (ODict.key_eqb k k0); [exact Hk|]. apply IH; assumption.
Qed.

(** A later pass never overwrites a key an earlier pass put in [combined]. *)
Lemma merge_first_seen_keeps (combined mapping : list (option string * float))
    (k : option string) (v : float) :
  ODict.get k combined = Some v -> ODict.get k (merge_first_seen combined mapping) = Some v.
Proof.
  unfold merge_first_seen. revert combined.
  induction mapping as [|[k' v'] mapping IH]; intros combined Hk; simpl; [exact Hk|].
  apply IH. unfold ODict.mem.
  destruct (ODict.get k' combined) as [x|] eqn:E'; [exact Hk|].
  apply odict_get_set_other; assumption.
Qed.

Lemma save_cached_factors_with_source_data (m : list (option string * float))
    (w : FactorWorld) (d : string -> option (list (string * float))) :
  save_cached_factors m (with_source_data w d) = with_source_data (save_cached_factors m w) d.
Proof. destruct w as [cf cw srcs ember sd]; unfold save_cached_factors; simpl; destruct cw; reflexivity. Qed.

(** Claim C6 is broken in the code: [refresh_cached_factors] never fetches
    the configured sources.  Each pass of its loop calls
    [load_electricity_factors_from_api()] and ignores [src], so what the
    sources serve has no effect on the result; with one source serving
    "kwh" -> 0.5 and Ember unreachable, the refresh returns an empty map. *)
Theorem refresh_cached_factors_ignores_sources :
  (forall w d,
     refresh_cached_factors (with_source_data w d)
     = (with_source_data (fst (refresh_cached_factors w)) d,
        snd (refresh_cached_factors w)))
  /\ fetch_from_url one_source_world "https://factors.example/eu.json" = [("kwh", 0.5%float)]
  /\ refresh_cached_factors one_source_world = (one_source_world, []).
Proof.
  split; [|split; reflexivity].
  intros w d. unfold refresh_cached_factors.
  change (configured_sources (with_source_data w d)) with (configured_sources w).
  destruct (configured_sources w) as [|src sources]; [reflexivity|].
  change (refresh_loop (with_source_data w d) (src :: sources))
    with (refresh_loop w (src :: sources)).
  destruct (refresh_loop w (src :: sources)) as [|kv rest]; [reflexivity|].
  rewrite save_cached_factors_with_source_data. reflexivity.
Qed.

(** ** Sensor reconciliation *)

Lemma PyKey_eqb_spec (a b : PyKey) : PyKey_eqb a b = true <-> a = b.
Proof.
  destruct a as [x|x], b as [y|y]; simpl; rewrite ?Z.eqb_eq, ?String.eqb_eq;
    intuition congruence.
Qed.

Lemma OKey_eqb_spec (a b : option PyKey) : OKey_eqb a b = true <-> a = b.
Proof.
  destruct a as [x|], b as [y|]; simpl; rewrite ?PyKey_eqb_spec; intuition congruence.
Qed.

Section AListFacts.
Context {K V : Type} (eqb : K -> K -> bool).
Hypothesis eqb_spec : forall x y, eqb x y = true <-> x = y.

Lemma eqb_refl_al (x : K) : eqb x x = true.
Proof. apply eqb_spec; reflexivity. Qed.

Lemma al_get_set (k k' : K) (v : V) (d : list (K * V)) :
  al_get eqb k (al_set eqb k' v d) = if eqb k k' then Some v else al_get eqb k d.
Proof.
  induction d as [|[k0 v0] d IH]; simpl.
  - destruct (eqb k k'); reflexivity.
  - destruct (eqb k' k0) eqn:E1; simpl.
    + apply eqb_spec in E1; subst k0. destruct (eqb k k'); reflexivity.
    + destruct (eqb k k0) eqn:E2; [|exact IH].
      destruct (eqb k k') eqn:E3; [|reflexivity].
      apply eqb_spec in E2; apply eqb_spec in E3; subst.
      rewrite eqb_refl_al in E1; discriminate.
Qed.

Lemma al_get_In (k : K) (v : V) (d : list (K * V)) :
  al_get eqb k d = Some v -> In (k, v) d.
Proof.
  induction d as [|[k0 v0] d IH]; simpl; intros H; [discriminate|].
  destruct (eqb k k0) eqn:E.
  - apply eqb_spec in E; subst. left; congruence.
  - right; auto.
Qed.

Lemma al_set_keys (x k : K) (v : V) (d : list (K * V)) :
  In x (map fst (al_set eqb k v d)) -> x = k \/ In x (map fst d).
Proof.
  induction d as [|[k0 v0] d IH]; simpl; intros H.
  - destruct H as [H|[]]; left; auto.
  - destruct (eqb k k0); simpl in H; [right; exact H|].
    destruct H as [H|H]; [right; left; exact H|].
    destruct (IH H); auto.
Qed.

Lemma al_set_nodup (k : K) (v : V) (d : list (K * V)) :
  NoDup (map fst d) -> NoDup (map fst (al_set eqb k v d)).
Proof.
  induction d as [|[k0 v0] d IH]; simpl; intros Hnd.
  - constructor; [intros []|constructor].
  - inversion Hnd as [|? ? Hni Hnd']; subst.
    destruct (eqb k k0) eqn:E; simpl; constructor; auto.
    intros Hin; apply al_set_keys in Hin; destruct Hin as [Hin|Hin]; [|contradiction].
    subst; rewrite eqb_refl_al in E; discriminate.
Qed.

Lemma al_get_of_In (k : K) (v : V) (d : list (K * V)) :
  NoDup (map fst d) -> In (k, v) d -> al_get eqb k d = Some v.
Proof.
  induction d as [|[k0 v0] d IH]; simpl; intros Hnd Hin; [contradiction|].
  inversion Hnd as [|? ? Hni Hnd']; subst.
  destruct Hin as [Heq|Hin].
  - injection Heq; intros; subst. rewrite eqb_refl_al. reflexivity.
  - destruct (eqb k k0) eqn:E; [|auto].
    apply eqb_spec in E; subst. exfalso; apply Hni.
    change k0 with (fst (k0, v)). apply in_map; exact Hin.
Qed.

End AListFacts.

Lemma carries_bool (s : SensorRow) (k : PyKey) :
  (match s_device_id s with Some e => PyKey_eqb k e | None => false end
   || match s_id s with Some i => PyKey_eqb k i | None => false end)%bool = true
  <-> carries s k.
Proof.
  unfold carries; destruct (s_id s) as [i|], (s_device_id s) as [e|]; simpl;
    rewrite ?orb_true_iff, ?PyKey_eqb_spec; intuition congruence.
Qed.

Lemma sensor_map_step_get (m : list (PyKey * SensorMeta)) (s : SensorRow) (k : PyKey) :
  al_get PyKey_eqb k (sensor_map_step m s) =
  if (match s_device_id s with Some e => PyKey_eqb k e | None => false end
      || match s_id s with Some i => PyKey_eqb k i | None => false end)%bool
  then Some (meta_of s) else al_get PyKey_eqb k m.
Proof.
  unfold sensor_map_step.
  destruct (s_id s) as [i|], (s_device_id s) as [e|]; simpl;
    rewrite ?(al_get_set PyKey_eqb PyKey_eqb_spec);
    try destruct (PyKey_eqb k e); try destruct (PyKey_eqb k i); reflexivity.
Qed.

Lemma sensor_map_fold_keep (l : list SensorRow) m k s :
  (forall s', In s' l -> carries s' k -> s' = s) ->
  al_get PyKey_eqb k m = Some (meta_of s) ->
  al_get PyKey_eqb k (fold_left sensor_map_step l m) = Some (meta_of s).
Proof.
  revert m; induction l as [|x l IH]; simpl; intros m H Hm; [exact Hm|].
  apply IH; [intros; apply H; auto|].
  rewrite sensor_map_step_get.
  match goal with |- context [if ?b then _ else _] => destruct b eqn:E end; [|exact Hm].
  rewrite (H x (or_introl eq_refl)); [reflexivity|apply carries_bool; exact E].
Qed.

Lemma sensor_map_fold_hit (l : list SensorRow) m k s :
  (forall s', In s' l -> carries s' k -> s' = s) -> In s l -> carries s k ->
  al_get PyKey_eqb k (fold_left sensor_map_step l m) = Some (meta_of s).
Proof.
  revert m; induction l as [|x l IH]; simpl; intros m H Hin Hc; [contradiction|].
  destruct Hin as [<-|Hin].
  - apply sensor_map_fold_keep; [intros; apply H; auto|].
    rewrite sensor_map_step_get, (proj2 (carries_bool x k) Hc). reflexivity.
  - apply IH; auto.
Qed.

Lemma sensor_map_fold_src (l : list SensorRow) m k v :
  al_get PyKey_eqb k (fold_left sensor_map_step l m) = Some v ->
  al_get PyKey_eqb k m = Some v \/ exists s', In s' l /\ carries s' k /\ v = meta_of s'.
Proof.
  revert m; induction l as [|x l IH]; simpl; intros m H; [left; exact H|].
  destruct (IH _ H) as [H1|[s' [Hin [Hc Hv]]]]; [|right; exists s'; auto].
  rewrite sensor_map_step_get in H1.
  match type of H1 with (if ?b then _ else _) = _ => destruct b eqn:E end; [|left; exact H1].
  right; exists x; split; [left; reflexivity|split; [apply carries_bool; exact E|congruence]].
Qed.

Lemma build_sensor_map_src (sensors : list SensorRow) k v :
  al_get PyKey_eqb k (build_sensor_map sensors) = Some v ->
  exists s', In s' sensors /\ carries s' k /\ v = meta_of s'.
Proof.
  unfold build_sensor_map; intros H.
  destruct (sensor_map_fold_src _ _ _ _ H) as [H'|H']; [discriminate|exact H'].
Qed.

Lemma group_step_inv smap (pre : list ActivityRow) g a :
  NoDup (map fst g) ->
  (forall cid, al_get OKey_eqb cid g =
               match filter (in_group smap cid) pre with [] => None | f => Some f end) ->
  NoDup (map fst (group_step smap g a)) /\
  (forall cid, al_get OKey_eqb cid (group_step smap g a) =
               match filter (in_group smap cid) (pre ++ [a]) with [] => None | f => Some f end).
Proof.
  intros Hnd Hg. unfold group_step.
  destruct (row_canonical smap a) as [c|] eqn:Erc.
  - assert (Ha : forall cid, in_group smap cid a = OKey_eqb c cid)
      by (intros; unfold in_group; rewrite Erc; reflexivity).
    destruct (al_get OKey_eqb c g) as [acts|] eqn:Eg;
      (split; [apply al_set_nodup; [exact OKey_eqb_spec|exact Hnd]|]);
      intros cid; rewrite (al_get_set OKey_eqb OKey_eqb_spec), filter_app; simpl; rewrite Ha;
      destruct (OKey_eqb cid c) eqn:E1.
    + apply OKey_eqb_spec in E1; subst cid.
      rewrite (proj2 (OKey_eqb_spec c c) eq_refl).
      specialize (Hg c); rewrite Eg in Hg.
      destruct (filter (in_group smap c) pre) as [|x f]; [discriminate|].
      injection Hg as Hx; subst acts; reflexivity.
    + assert (E2 : OKey_eqb c cid = false)
        by (destruct (OKey_eqb c cid) eqn:E; [apply OKey_eqb_spec in E; subst;
              rewrite (proj2 (OKey_eqb_spec cid cid) eq_refl) in E1; discriminate|reflexivity]).
      rewrite E2, app_nil_r. apply Hg.
    + apply OKey_eqb_spec in E1; subst cid.
      rewrite (proj2 (OKey_eqb_spec c c) eq_refl).
      specialize (Hg c); rewrite Eg in Hg.
      destruct (filter (in_group smap c) pre) as [|x f]; [reflexivity|discriminate].
    + assert (E2 : OKey_eqb c cid = false)
        by (destruct (OKey_eqb c cid) eqn:E; [apply OKey_eqb_spec in E; subst;
              rewrite (proj2 (OKey_eqb_spec cid cid) eq_refl) in E1; discriminate|reflexivity]).
      rewrite E2, app_nil_r. apply Hg.
  - split; [exact Hnd|]. intros cid. rewrite filter_app; simpl.
    assert (Ha : in_group smap cid a = false) by (unfold in_group; rewrite Erc; reflexivity).
    rewrite Ha, app_nil_r. apply Hg.
Qed.

Lemma group_fold_inv smap (l pre : list ActivityRow) g :
  NoDup (map fst g) ->
  (forall cid, al_get OKey_eqb cid g =
               match filter (in_group smap cid) pre with [] => None | f => Some f end) ->
  NoDup (map fst (fold_left (group_step smap) l g)) /\
  (forall cid, al_get OKey_eqb cid (fold_left (group_step smap) l g) =
               match filter (in_group smap cid) (pre ++ l) with [] => None | f => Some f end).
Proof.
  revert pre g; induction l as [|a l IH]; simpl; intros pre g Hnd Hg.
  - rewrite app_nil_r; auto.
  - destruct (group_step_inv smap pre g a Hnd Hg) as [H1 H2].
    change (a :: l) with ([a] ++ l)%list. rewrite app_assoc. exact (IH _ _ H1 H2).
Qed.

(** [by_canonical_id] has one entry per canonical id, holding exactly the
    rows filed under it, in query order. *)
Lemma group_by_canonical_spec smap (activities : list ActivityRow) :
  NoDup (map fst (group_by_canonical smap activities)) /\
  (forall cid, al_get OKey_eqb cid (group_by_canonical smap activities) =
               match filter (in_group smap cid) activities with [] => None | f => Some f end).
Proof.
  apply (group_fold_inv smap activities [] []); [constructor|intros; reflexivity].
Qed.

Lemma summary_fold_none parse_iso smap start_iso end_iso l :
  fold_left (summary_step parse_iso smap start_iso end_iso) l None = None.
Proof. induction l; simpl; auto. Qed.

Lemma summary_fold_out parse_iso smap start_iso end_iso l t acc t' sums :
  fold_left (summary_step parse_iso smap start_iso end_iso) l (Some (t, acc)) = Some (t', sums) ->
  exists outs, sums = (acc ++ outs)%list /\
    forall x, In x outs -> exists k acts m, In (Some k, acts) l /\
      al_get PyKey_eqb k smap = Some m /\ SensorSummary.sensor_id x = meta_id m.
Proof.
  revert t acc; induction l as [|[cid acts] l IH]; intros t acc H; cbn [fold_left] in H.
  - injection H as _ <-. exists []. split; [rewrite app_nil_r; reflexivity|intros _ []].
  - destruct (summary_step parse_iso smap start_iso end_iso (Some (t, acc)) (cid, acts))
      as [[t1 s1]|] eqn:Es; [|rewrite summary_fold_none in H; discriminate].
    destruct (IH _ _ H) as [outs [Hs Hx]].
    assert (Hnew : exists new, s1 = (acc ++ new)%list /\
              forall x, In x new -> exists k m, cid = Some k /\
                al_get PyKey_eqb k smap = Some m /\ SensorSummary.sensor_id x = meta_id m).
    { unfold summary_step in Es.
      destruct cid as [k|]; [destruct (al_get PyKey_eqb k smap) as [m|] eqn:Em|].
      - match type of Es with context [process_sensor ?a ?b ?c ?d ?e] =>
          destruct (process_sensor a b c d e) as [[[e' c'] h']|] end; [|discriminate].
        injection Es as _ <-. eexists; split; [reflexivity|].
        intros x [<-|[]]. exists k, m; auto.
      - injection Es as _ <-. exists []; split; [rewrite app_nil_r; reflexivity|intros _ []].
      - injection Es as _ <-. exists []; split; [rewrite app_nil_r; reflexivity|intros _ []]. }
    destruct Hnew as [new [Hs1 Hn]].
    exists (new ++ outs)%list; split; [rewrite Hs, Hs1, app_assoc; reflexivity|].
    intros x Hin; apply in_app_or in Hin; destruct Hin as [Hin|Hin].
    + destruct (Hn x Hin) as [k [m [-> [Hm Hid]]]].
      exists k, acts, m; split; [left; reflexivity|auto].
    + destruct (Hx x Hin) as [k' [acts' [m' [? ?]]]]; exists k', acts', m'; split; [right|]; auto.
Qed.

Lemma float_or_zero_idem (x : option float) :
  float_or_zero (Some (float_or_zero x)) = float_or_zero x.
Proof.
  destruct x as [v|]; [|reflexivity]. unfold float_or_zero.
  destruct (float_truthy v) eqn:E; [rewrite E; reflexivity|reflexivity].
Qed.

Lemma filter_all_false {A : Type} (f : A -> bool) (l : list A) :
  (forall x, In x l -> f x = false) -> filter f l = [].
Proof.
  induction l as [|x l IH]; simpl; intros H; [reflexivity|].
  rewrite (H x (or_introl eq_refl)). apply IH; auto.
Qed.

Lemma summary_step_hit parse_iso smap start_iso end_iso t1 s1 k acts m :
  al_get PyKey_eqb k smap = Some m ->
  summary_step parse_iso smap start_iso end_iso (Some (t1, s1)) (Some k, acts) =
  match process_sensor parse_iso (float_or_zero (Some (meta_power_kW m))) start_iso end_iso acts with
  | None => None
  | Some (e, c, h) =>
      Some ((t1 + e * float_or_zero (Some (meta_emission_factor m)))%float,
            (s1 ++ [SensorSummary.mk (meta_id m) (meta_device_id m) (py_round e 6)
                      (py_round (e * float_or_zero (Some (meta_emission_factor m))) 6)
                      c (py_round h 4) (meta_row m)])%list)
  end.
Proof. intros Hm. unfold summary_step. rewrite Hm. reflexivity. Qed.

(** A group of [by_canonical_id] is keyed by the id of the sensor its
    rows resolve to, when identifiers are not shared between sensors. *)
Lemma group_key_meta (sensors : list SensorRow) (activities : list ActivityRow) k acts m :
  (forall s1 s2 k, In s1 sensors -> In s2 sensors -> carries s1 k -> carries s2 k -> s1 = s2) ->
  In (Some k, acts) (group_by_canonical (build_sensor_map sensors) activities) ->
  al_get PyKey_eqb k (build_sensor_map sensors) = Some m -> meta_id m = Some k.
Proof.
  intros Huniq Hin Hm.
  destruct (group_by_canonical_spec (build_sensor_map sensors) activities) as [Hnd Hg].
  pose proof (al_get_of_In OKey_eqb OKey_eqb_spec _ _ _ Hnd Hin) as Hget.
  rewrite Hg in Hget.
  destruct (filter (in_group (build_sensor_map sensors) (Some k)) activities) as [|a f] eqn:Ef;
    [discriminate|].
  assert (Ha : in_group (build_sensor_map sensors) (Some k) a = true).
  { assert (Hf : In a (filter (in_group (build_sensor_map sensors) (Some k)) activities))
      by (rewrite Ef; left; reflexivity).
    apply filter_In in Hf; tauto. }
  unfold in_group, row_canonical in Ha.
  destruct (row_device_key a) as [did|]; [|discriminate].
  destruct (al_get PyKey_eqb did (build_sensor_map sensors)) as [m'|] eqn:Em'; [|discriminate].
  apply OKey_eqb_spec in Ha.
  destruct (build_sensor_map_src _ _ _ Em') as [s' [Hs' [_ ->]]].
  destruct (build_sensor_map_src _ _ _ Hm) as [s'' [Hs'' [Hc'' ->]]].
  change (s_id s' = Some k) in Ha. change (s_id s'' = Some k).
  rewrite (Huniq s'' s' k Hs'' Hs' Hc'' (or_introl Ha)). exact Ha.
Qed.

(** Claim C7: when no identifier is shared by two sensors, a row naming
    sensor [s] by its id and a row naming it by its device id land in the
    same group, and the summaries hold exactly one entry for [s], computed
    from that group. *)
Theorem compute_sensor_emissions_one_entry_per_sensor
    (parse_iso : string -> option Z) (sensors : list SensorRow) (activities : list ActivityRow)
    (start_iso end_iso : string) (s : SensorRow) (sid ext : PyKey) (r1 r2 : ActivityRow)
    (total : float) (summaries : list SensorSummary.t)
    (Huniq : forall s1 s2 k, In s1 sensors -> In s2 sensors ->
                             carries s1 k -> carries s2 k -> s1 = s2)
    (Hs : In s sensors) (Hsid : s_id s = Some sid) (Hext : s_device_id s = Some ext)
    (Hr1 : In r1 activities) (Hk1 : row_device_key r1 = Some sid)
    (Hr2 : In r2 activities) (Hk2 : row_device_key r2 = Some ext)
    (Hrun : compute_sensor_emissions parse_iso sensors activities start_iso end_iso
            = Some (total, summaries)) :
  let acts := filter (in_group (build_sensor_map sensors) (Some sid)) activities in
  In r1 acts /\ In r2 acts /\
  exists energy cycles hours,
    process_sensor parse_iso (float_or_zero (s_power_kW s)) start_iso end_iso acts
      = Some (energy, cycles, hours) /\
    filter (fun x => OKey_eqb (SensorSummary.sensor_id x) (Some sid)) summaries =
      [SensorSummary.mk (Some sid) (Some ext) (py_round energy 6)
         (py_round (energy * float_or_zero (s_emission_factor s)) 6) cycles
         (py_round hours 4) s].
Proof.
  intros acts.
  assert (Hfold : exists t0,
            fold_left (summary_step parse_iso (build_sensor_map sensors) start_iso end_iso)
              (group_by_canonical (build_sensor_map sensors) activities) (Some (0%float, []))
            = Some (t0, summaries)).
  { unfold compute_sensor_emissions in Hrun.
    destruct sensors as [|s0 rest]; [destruct Hs|].
    cbv beta iota zeta in Hrun.
    destruct (fold_left (summary_step parse_iso (build_sensor_map (s0 :: rest)) start_iso end_iso)
                (group_by_canonical (build_sensor_map (s0 :: rest)) activities)
                (Some (0%float, []))) as [[t0 sums0]|] eqn:Ef; [|discriminate].
    injection Hrun as _ <-. exists t0; reflexivity. }
  destruct Hfold as [t0 Hfold].
  assert (Eacts : acts = filter (in_group (build_sensor_map sensors) (Some sid)) activities)
    by reflexivity.
  clearbody acts.
  assert (Huniq_s : forall k, carries s k -> forall s', In s' sensors -> carries s' k -> s' = s)
    by (intros k Hc s' Hs' Hc'; exact (Huniq s' s k Hs' Hs Hc' Hc)).
  assert (Hm_sid : al_get PyKey_eqb sid (build_sensor_map sensors) = Some (meta_of s))
    by (apply sensor_map_fold_hit; [apply Huniq_s; left; exact Hsid|exact Hs|left; exact Hsid]).
  assert (Hm_ext : al_get PyKey_eqb ext (build_sensor_map sensors) = Some (meta_of s))
    by (apply sensor_map_fold_hit; [apply Huniq_s; right; exact Hext|exact Hs|right; exact Hext]).
  assert (Hmid : meta_id (meta_of s) = Some sid) by exact Hsid.
  assert (Hin1 : In r1 acts).
  { rewrite Eacts; apply filter_In; split; [exact Hr1|].
    unfold in_group, row_canonical. rewrite Hk1, Hm_sid, Hmid. apply OKey_eqb_spec; reflexivity. }
  assert (Hin2 : In r2 acts).
  { rewrite Eacts; apply filter_In; split; [exact Hr2|].
    unfold in_group, row_canonical. rewrite Hk2, Hm_ext, Hmid. apply OKey_eqb_spec; reflexivity. }
  split; [exact Hin1|]. split; [exact Hin2|].
  destruct (group_by_canonical_spec (build_sensor_map sensors) activities) as [Hnd Hg].
  assert (Hgrp : In (Some sid, acts) (group_by_canonical (build_sensor_map sensors) activities)).
  { apply (al_get_In OKey_eqb OKey_eqb_spec). rewrite Hg, <- Eacts.
    destruct acts as [|a f]; [destruct Hin1|reflexivity]. }
  pose proof (fun k acts' m Hin Hm => group_key_meta sensors activities k acts' m Huniq Hin Hm)
    as Hkey.
  destruct (in_split _ _ Hgrp) as [g1 [g2 Hsplit]].
  rewrite Hsplit, map_app in Hnd. simpl in Hnd. apply NoDup_remove_2 in Hnd.
  rewrite Hsplit, fold_left_app in Hfold. cbn [fold_left] in Hfold.
  destruct (fold_left (summary_step parse_iso (build_sensor_map sensors) start_iso end_iso) g1
              (Some (0%float, []))) as [[t1 s1]|] eqn:E1;
    [|rewrite summary_fold_none in Hfold; discriminate].
  rewrite (summary_step_hit _ _ _ _ _ _ _ _ _ Hm_sid) in Hfold.
  change (meta_power_kW (meta_of s)) with (float_or_zero (s_power_kW s)) in Hfold.
  change (meta_emission_factor (meta_of s)) with (float_or_zero (s_emission_factor s)) in Hfold.
  rewrite !float_or_zero_idem in Hfold.
  destruct (process_sensor parse_iso (float_or_zero (s_power_kW s)) start_iso end_iso acts)
    as [[[e c] h]|]; [|rewrite summary_fold_none in Hfold; discriminate].
  exists e, c, h. split; [reflexivity|].
  destruct (summary_fold_out _ _ _ _ _ _ _ _ _ E1) as [outs1 [Hs1 Hx1]].
  destruct (summary_fold_out _ _ _ _ _ _ _ _ _ Hfold) as [outs2 [Hs2 Hx2]].
  rewrite Hs2, Hs1. simpl app. rewrite !filter_app.
  assert (Hother : forall g, (forall k acts', In (Some k, acts') g -> In (Some k, acts') (g1 ++ (Some sid, acts) :: g2)%list) ->
            (forall k acts', In (Some k, acts') g -> k <> sid) ->
            forall outs, (forall x, In x outs -> exists k acts' m, In (Some k, acts') g /\
                            al_get PyKey_eqb k (build_sensor_map sensors) = Some m /\
                            SensorSummary.sensor_id x = meta_id m) ->
            filter (fun x => OKey_eqb (SensorSummary.sensor_id x) (Some sid)) outs = []).
  { intros g Hsub Hne outs Hx. apply filter_all_false. intros x Hin.
    destruct (Hx x Hin) as [k [acts' [m [Hing [Hm Hid]]]]].
    rewrite Hid, (Hkey k acts' m); [|rewrite Hsplit; apply Hsub; exact Hing|exact Hm].
    destruct (OKey_eqb (Some k) (Some sid)) eqn:E; [|reflexivity].
    apply OKey_eqb_spec in E. injection E as E. exfalso; exact (Hne k acts' Hing E). }
  rewrite (Hother g1) with (outs := outs1), (Hother g2) with (outs := outs2); auto.
  - cbn [filter SensorSummary.sensor_id app].
    rewrite Hsid, Hext, (proj2 (OKey_eqb_spec (Some sid) (Some sid)) eq_refl). reflexivity.
  - intros k acts' Hin; apply in_or_app; right; right; exact Hin.
  - intros k acts' Hin E; subst k. apply Hnd. apply in_or_app; right.
    change (Some sid) with (fst (Some sid, acts')). apply in_map; exact Hin.
  - intros k acts' Hin; apply in_or_app; left; exact Hin.
  - intros k acts' Hin E; subst k. apply Hnd. apply in_or_app; left.
    change (Some sid) with (fst (Some sid, acts')). apply in_map; exact Hin.
Qed.

Lemma compute_sensor_emissions_one_entry_per_sensor_witness :
  match compute_sensor_emissions parse_iso_basic [sensor_one]
          [energy_row; event_row "ON" "2025-01-01T01:00:00"]
          "2025-01-01T00:00:00" "2025-01-02T00:00:00" with
  | Some (total, summaries) =>
      length (filter (fun x => OKey_eqb (SensorSummary.sensor_id x) (Some (KInt 1))) summaries)
      = 1%nat
  | None => False
  end.
Proof.
  destruct (compute_sensor_emissions parse_iso_basic [sensor_one]
              [energy_row; event_row "ON" "2025-01-01T01:00:00"]
              "2025-01-01T00:00:00" "2025-01-02T00:00:00") as [[total summaries]|] eqn:E.
  - pose proof (compute_sensor_emissions_one_entry_per_sensor parse_iso_basic [sensor_one]
                  [energy_row; event_row "ON" "2025-01-01T01:00:00"]
                  "2025-01-01T00:00:00" "2025-01-02T00:00:00" sensor_one (KInt 1) (KStr "dev-1")
                  energy_row (event_row "ON" "2025-01-01T01:00:00") total summaries
                  ltac:(intros s1 s2 k [<-|[]] [<-|[]] _ _; reflexivity)
                  ltac:(left; reflexivity) ltac:(reflexivity) ltac:(reflexivity)
                  ltac:(left; reflexivity) ltac:(reflexivity)
                  ltac:(right; left; reflexivity) ltac:(reflexivity) E) as H.
    cbv zeta in H. destruct H as [_ [_ [e [c [h [_ Hf]]]]]].
    rewrite Hf. reflexivity.
  - vm_compute in E. discriminate.
Defined.

Lemma filter_idem {A : Type} (f : A -> bool) (l : list A) :
  filter f (filter f l) = filter f l.
Proof.
  induction l as [|x l IH]; simpl; [reflexivity|].
  destruct (f x) eqn:E; simpl; [rewrite E, IH|]; auto.
Qed.

Lemma process_sensor_explicit_nonempty parse_iso power_kw start_iso end_iso acts :
  filter (fun r => RowKind_eqb (classify r) ExplicitRow) acts <> [] ->
  process_sensor parse_iso power_kw start_iso end_iso acts
  = Some (method_explicit (filter (fun r => RowKind_eqb (classify r) ExplicitRow) acts)).
Proof.
  intros Hne. unfold process_sensor.
  destruct (filter (fun r => RowKind_eqb (classify r) ExplicitRow) acts); [congruence|reflexivity].
Qed.

(** Claim C8: as soon as one row of a sensor carries an explicit energy
    field, the sensor's figures come from the explicit rows alone: the
    float sum of their values, their count as cycles and no on-hours; the
    other rows do not change the result.  With sensor 1 (2 kW, factor
    0.5), the row [{energy_kwh: 10}] and an ON/OFF pair 3 hours apart give
    10 kWh and 5 kg, whatever the time parser; the pair alone would give
    6 kWh. *)
Theorem process_sensor_explicit_only :
  (forall parse_iso power_kw start_iso end_iso acts a,
     In a acts -> classify a = ExplicitRow ->
     process_sensor parse_iso power_kw start_iso end_iso acts
       = Some (method_explicit (filter (fun r => RowKind_eqb (classify r) ExplicitRow) acts))
     /\ process_sensor parse_iso power_kw start_iso end_iso acts
       = process_sensor parse_iso power_kw start_iso end_iso
           (filter (fun r => RowKind_eqb (classify r) ExplicitRow) acts))
  /\ (forall parse_iso,
        compute_sensor_emissions parse_iso [sensor_one]
          [energy_row; event_row "ON" "2025-01-01T01:00:00"; event_row "OFF" "2025-01-01T04:00:00"]
          "2025-01-01T00:00:00" "2025-01-02T00:00:00"
        = Some (5%float, [SensorSummary.mk (Some (KInt 1)) (Some (KStr "dev-1"))
                            10%float 5%float 1 0%float sensor_one]))
  /\ compute_sensor_emissions parse_iso_basic [sensor_one]
       [event_row "ON" "2025-01-01T01:00:00"; event_row "OFF" "2025-01-01T04:00:00"]
       "2025-01-01T00:00:00" "2025-01-02T00:00:00"
     = Some (3%float, [SensorSummary.mk (Some (KInt 1)) (Some (KStr "dev-1"))
                         6%float 3%float 1 3%float sensor_one]).
Proof.
  split; [|split; [intros parse_iso|]; vm_compute; reflexivity].
  intros parse_iso power_kw start_iso end_iso acts a Hin Ha.
  assert (Hne : filter (fun r => RowKind_eqb (classify r) ExplicitRow) acts <> []).
  { intros E. assert (Hf : In a (filter (fun r => RowKind_eqb (classify r) ExplicitRow) acts))
      by (apply filter_In; rewrite Ha; split; [exact Hin|reflexivity]).
    rewrite E in Hf; destruct Hf. }
  rewrite (process_sensor_explicit_nonempty _ _ _ _ acts Hne).
  split; [reflexivity|].
  rewrite process_sensor_explicit_nonempty, filter_idem; [reflexivity|].
  rewrite filter_idem; exact Hne.
Qed.

Lemma process_sensor_explicit_only_witness :
  process_sensor parse_iso_basic 2%float "2025-01-01T00:00:00" "2025-01-02T00:00:00"
    [energy_row; event_row "ON" "2025-01-01T01:00:00"; event_row "OFF" "2025-01-01T04:00:00"]
  = Some (10%float, 1%nat, 0%float).
Proof.
  destruct process_sensor_explicit_only as [H _].
  destruct (H parse_iso_basic 2%float "2025-01-01T00:00:00" "2025-01-02T00:00:00"
              [energy_row; event_row "ON" "2025-01-01T01:00:00";
               event_row "OFF" "2025-01-01T04:00:00"] energy_row
              ltac:(left; reflexivity) ltac:(reflexivity)) as [E _].
  rewrite E. vm_compute. reflexivity.
Defined.

(** Claim C9 fails: a duration row's explicit [hours] is credited as it
    stands.  A 10-hour session from 00:00 to 10:00 with [hours = 10],
    against a window opening at 05:00, overlaps the window for 5 hours but
    is credited 10, so the 2 kW sensor is charged 20 kWh. *)
Lemma duration_hours_explicit_not_clamped :
  let row := session_row (Some (Num 10%float)) "2025-01-01T00:00:00" "2025-01-01T10:00:00" in
  classify row = DurationRow
  /\ window_overlap_hours parse_iso_basic "2025-01-01T05:00:00" "2025-01-02T00:00:00" row
     = Some 5%float
  /\ duration_hours parse_iso_basic "2025-01-01T05:00:00" "2025-01-02T00:00:00" row
     = Some 10%float
  /\ compute_sensor_emissions parse_iso_basic [sensor_one] [row]
       "2025-01-01T05:00:00" "2025-01-02T00:00:00"
     = Some (10%float, [SensorSummary.mk (Some (KInt 1)) (Some (KStr "dev-1"))
                          20%float 10%float 1 10%float sensor_one]).
Proof. vm_compute. repeat split. Qed.

(** Claim C9, as the code has it: an explicit numeric [hours] is credited
    unchanged; otherwise the hours come from the session timestamps, which
    must parse and increase, and are clamped to the window (0 when the
    session misses it); a row whose timestamps do not parse or do not
    increase is skipped.  A session from 00:00 to 10:00 without [hours],
    against a window opening at 05:00, is credited 5 hours (10 kWh at
    2 kW). *)
Theorem duration_hours_clamped_to_window :
  (forall parse_iso start_iso end_iso a h,
     a_hours a = Some (Num h) -> duration_hours parse_iso start_iso end_iso a = Some h)
  /\ (forall parse_iso start_iso end_iso a s_dt e_dt w_start w_end,
        (a_hours a = None \/ a_hours a = Some NotNum) ->
        parse_opt parse_iso (session_start_of a) = Some s_dt ->
        parse_opt parse_iso (session_end_of a) = Some e_dt ->
        (s_dt < e_dt)%Z ->
        parse_opt parse_iso (Some start_iso) = Some w_start ->
        parse_opt parse_iso (Some end_iso) = Some w_end ->
        duration_hours parse_iso start_iso end_iso a
        = Some (if (Z.max s_dt w_start <? Z.min e_dt w_end)%Z
                then (total_seconds (Z.min e_dt w_end - Z.max s_dt w_start) / 3600)%float
                else 0%float))
  /\ (forall parse_iso start_iso end_iso a,
        (a_hours a = None \/ a_hours a = Some NotNum) ->
        (forall s_dt e_dt, parse_opt parse_iso (session_start_of a) = Some s_dt ->
                           parse_opt parse_iso (session_end_of a) = Some e_dt -> (e_dt <= s_dt)%Z) ->
        duration_hours parse_iso start_iso end_iso a = None)
  /\ compute_sensor_emissions parse_iso_basic [sensor_one]
       [session_row None "2025-01-01T00:00:00" "2025-01-01T10:00:00"]
       "2025-01-01T05:00:00" "2025-01-02T00:00:00"
     = Some (5%float, [SensorSummary.mk (Some (KInt 1)) (Some (KStr "dev-1"))
                         10%float 5%float 1 5%float sensor_one]).
Proof.
  split; [|split; [|split]].
  - intros parse_iso start_iso end_iso a h Hh. unfold duration_hours. rewrite Hh. reflexivity.
  - intros parse_iso start_iso end_iso a s_dt e_dt w_start w_end Hh Hs He Hlt Hws Hwe.
    assert (Hltb : (s_dt <? e_dt)%Z = true) by (apply Z.ltb_lt; exact Hlt).
    unfold duration_hours.
    destruct Hh as [Hh|Hh]; rewrite Hh, Hs, He, Hltb, Hws, Hwe;
      destruct (Z.max s_dt w_start <? Z.min e_dt w_end)%Z; reflexivity.
  - intros parse_iso start_iso end_iso a Hh Hle. unfold duration_hours.
    destruct Hh as [Hh|Hh]; rewrite Hh;
    destruct (parse_opt parse_iso (session_start_of a)) as [s_dt|]; try reflexivity;
    destruct (parse_opt parse_iso (session_end_of a)) as [e_dt|]; try reflexivity;
    specialize (Hle s_dt e_dt eq_refl eq_refl);
    replace (s_dt <? e_dt)%Z with false by (symmetry; apply Z.ltb_ge; exact Hle);
    reflexivity.
  - vm_compute. reflexivity.
Qed.

Lemma duration_hours_clamped_to_window_witness :
  duration_hours parse_iso_basic "2025-01-01T05:00:00" "2025-01-02T00:00:00"
    (session_row (Some (Num 10%float)) "2025-01-01T00:00:00" "2025-01-01T10:00:00") = Some 10%float
  /\ duration_hours parse_iso_basic "2025-01-01T05:00:00" "2025-01-02T00:00:00"
       (session_row None "2025-01-01T00:00:00" "2025-01-01T10:00:00") = Some 5%float
  /\ duration_hours parse_iso_basic "2025-01-01T05:00:00" "2025-01-02T00:00:00"
       (session_row None "2025-01-01T10:00:00" "2025-01-01T00:00:00") = None.
Proof.
  destruct duration_hours_clamped_to_window as [H1 [H2 [H3 _]]].
  split; [|split].
  - apply H1. reflexivity.
  - rewrite (H2 parse_iso_basic "2025-01-01T05:00:00" "2025-01-02T00:00:00"
               (session_row None "2025-01-01T00:00:00" "2025-01-01T10:00:00")
               1735689600000000%Z 1735725600000000%Z 1735707600000000%Z 1735776000000000%Z
               ltac:(left; reflexivity) ltac:(vm_compute; reflexivity)
               ltac:(vm_compute; reflexivity) ltac:(lia)
               ltac:(vm_compute; reflexivity) ltac:(vm_compute; reflexivity)).
    vm_compute. reflexivity.
  - apply H3; [left; reflexivity|].
    intros s_dt e_dt Hs He. vm_compute in Hs, He. injection Hs as <-. injection He as <-. lia.
Defined.

(** * Further properties of the modelled code *)

Lemma lower_char_space (c : Ascii.ascii) :
  Ascii.eqb " "%char (lower_char c) = Ascii.eqb " "%char c.
Proof. destruct c as [[] [] [] [] [] [] [] []]; reflexivity. Qed.

Lemma lower_char_idem (c : Ascii.ascii) : lower_char (lower_char c) = lower_char c.
Proof. destruct c as [[] [] [] [] [] [] [] []]; reflexivity. Qed.

Lemma lower_idem (s : string) : lower (lower s) = lower s.
Proof. induction s as [|c s IH]; simpl; [reflexivity|]. rewrite lower_char_idem, IH. reflexivity. Qed.

Lemma lower_remove_space (s : string) :
  lower (remove_char " " s) = remove_char " " (lower s).
Proof.
  induction s as [|c s IH]; cbn [lower remove_char]; [reflexivity|].
  rewrite lower_char_space. destruct (Ascii.eqb " " c); cbn [lower]; rewrite IH; reflexivity.
Qed.

Lemma remove_char_idem (c : Ascii.ascii) (s : string) :
  remove_char c (remove_char c s) = remove_char c s.
Proof.
  induction s as [|x s IH]; simpl; [reflexivity|].
  destruct (Ascii.eqb c x) eqn:E; simpl; [exact IH|]. rewrite E, IH. reflexivity.
Qed.

Lemma lstrip_remove_space (s : string) :
  lstrip (remove_char " " s) = remove_char " " (lstrip s).
Proof.
  induction s as [|c s IH]; cbn [remove_char lstrip]; [reflexivity|].
  destruct (Ascii.eqb " " c) eqn:E.
  - apply Ascii.eqb_eq in E; subst c.
    replace (is_space " ") with true by reflexivity. exact IH.
  - cbn [lstrip]. destruct (is_space c); [exact IH|]. cbn [remove_char]. rewrite E. reflexivity.
Qed.

Lemma remove_char_string_rev (c : Ascii.ascii) (s acc : string) :
  remove_char c (string_rev s acc) = string_rev (remove_char c s) (remove_char c acc).
Proof.
  revert acc; induction s as [|x s IH]; intros acc; simpl; [reflexivity|].
  rewrite IH. simpl. destruct (Ascii.eqb c x); reflexivity.
Qed.

Lemma strip_remove_space (s : string) :
  strip (remove_char " " s) = remove_char " " (strip s).
Proof.
  unfold strip.
  rewrite lstrip_remove_space.
  change EmptyString with (remove_char " " EmptyString) at 1.
  rewrite <- remove_char_string_rev, lstrip_remove_space, remove_char_string_rev.
  reflexivity.
Qed.

(** [normalize_unit] without its empty-string guard. *)
Lemma normalize_unit_eq (u : string) :
  normalize_unit u = remove_char "." (remove_char " " (strip (lower u))).
Proof. unfold normalize_unit. destruct (String.eqb_spec u ""); [subst; reflexivity|reflexivity]. Qed.

Lemma normalize_unit_remove_space (u : string) :
  normalize_unit (remove_char " " u) = normalize_unit u.
Proof.
  rewrite !normalize_unit_eq, lower_remove_space, strip_remove_space, remove_char_idem.
  reflexivity.
Qed.

Lemma normalize_unit_lower (u : string) : normalize_unit (lower u) = normalize_unit u.
Proof. rewrite !normalize_unit_eq, lower_idem. reflexivity. Qed.

Lemma normalize_unit_case_space (u : string) :
  normalize_unit u = normalize_unit (lower (remove_char " " u)).
Proof. rewrite normalize_unit_lower, normalize_unit_remove_space. reflexivity. Qed.

Lemma get_factor_for_unit_key (w : FactorWorld) (u1 u2 : string) :
  u1 <> "" -> u2 <> "" ->
  lower (remove_char " " u1) = lower (remove_char " " u2) ->
  get_factor_for_unit w (Some u1) = get_factor_for_unit w (Some u2).
Proof.
  intros H1 H2 E. unfold get_factor_for_unit.
  rewrite (proj2 (String.eqb_neq u1 "") H1), (proj2 (String.eqb_neq u2 "") H2).
  rewrite (normalize_unit_case_space u1), (normalize_unit_case_space u2), E. reflexivity.
Qed.

(** X1 ([get_factor_for_unit]): two non-empty ASCII unit strings (without
    the separators \x1c-\x1f, which Python's strip also removes) that agree
    once spaces are removed and letters are lower-cased look up the same
    cached factor. *)
Theorem get_factor_for_unit_case_space_insensitive (w : FactorWorld) (u1 u2 : string) :
  forallb plain_ascii (list_ascii_of_string u1) = true ->
  forallb plain_ascii (list_ascii_of_string u2) = true ->
  u1 <> "" -> u2 <> "" ->
  lower (remove_char " " u1) = lower (remove_char " " u2) ->
  get_factor_for_unit w (Some u1) = get_factor_for_unit w (Some u2).
Proof. intros _ _. exact (get_factor_for_unit_key w u1 u2). Qed.

Lemma tonne_units_normal (v : string) :
  in_list v tonne_units = true -> normalize_unit v = v.
Proof.
  unfold in_list; intros H. apply existsb_exists in H as [x [Hin Hx]].
  apply String.eqb_eq in Hx; subst x.
  simpl in Hin; repeat destruct Hin as [<-|Hin]; try reflexivity; contradiction.
Qed.

Lemma convert_to_kg_tonne (q : float) (u : string) :
  in_list (lower (remove_char " " u)) tonne_units = true ->
  convert_to_kg (Some q) (Some u) = Some (q * 1000)%float.
Proof.
  intros H. unfold convert_to_kg.
  rewrite normalize_unit_case_space, (tonne_units_normal _ H), H. reflexivity.
Qed.

(** X2 ([convert_to_kg]): a unit that, without spaces and in lower case,
    is one of t, tonne, tonnes, tco2, tco2e converts the quantity to
    kilograms by multiplying it by 1000. *)
Theorem convert_to_kg_tonne_units (q : float) (u : string) :
  in_list (lower (remove_char " " u)) tonne_units = true ->
  convert_to_kg (Some q) (Some u) = Some (q * 1000)%float.
Proof. exact (convert_to_kg_tonne q u). Qed.

Lemma convert_to_kg_scales (q : option float) (u : option string) (x : float) :
  convert_to_kg q u = Some x -> exists q', q = Some q' /\ x = (q' * 1000)%float.
Proof.
  unfold convert_to_kg; destruct q as [q'|], u as [u'|]; try discriminate.
  destruct (in_list _ _); [|discriminate]. intros H; injection H as <-. eauto.
Qed.

Lemma neg_abs_not_positive (x : float) : PrimFloat.ltb 0 (- PrimFloat.abs x)%float = false.
Proof.
  rewrite FloatAxioms.ltb_spec, FloatAxioms.opp_spec, FloatAxioms.abs_spec.
  destruct (Prim2SF x) as [[]|[]| |[] m e]; reflexivity.
Qed.

(** X3 ([get_company_item_emissions], fallback branch): for an item whose
    value is positive, the emissions the fallback computes are never
    positive (they are negated absolute values). *)
Theorem item_emissions_fallback_net_negative (w : FactorWorld) (qty : option float)
    (unit : option string) (e : float) :
  snd (item_emissions_fallback w qty unit true) = Some e -> PrimFloat.ltb 0 e = false.
Proof.
  unfold item_emissions_fallback.
  destruct (get_factor_for_unit w unit) as [cached|]; simpl; [|discriminate].
  destruct (match convert_to_kg qty unit with Some c => Some c | None => qty end); simpl;
    [|discriminate].
  intros H; injection H as <-. apply neg_abs_not_positive.
Qed.

(** X4 ([get_company_item_emissions], fallback branch): for a non-positive
    item with a quantity in a tonne unit and a cached factor f for that unit,
    the fallback reports f and emissions quantity * 1000 * f. *)
Theorem item_emissions_fallback_tonnes (w : FactorWorld) (q f : float) (u : string) :
  in_list (lower (remove_char " " u)) tonne_units = true ->
  get_factor_for_unit w (Some u) = Some f ->
  item_emissions_fallback w (Some q) (Some u) false = (Some f, Some (q * 1000 * f)%float).
Proof.
  intros Ht Hf. unfold item_emissions_fallback.
  rewrite (convert_to_kg_tonne q u Ht), Hf. reflexivity.
Qed.

Lemma Dict_get_set {V} (k k' : string) (v : V) (d : list (string * V)) :
  Dict.get k (Dict.set k' v d) = if String.eqb k k' then Some v else Dict.get k d.
Proof.
  induction d as [|[k0 v0] d IH]; simpl.
  - reflexivity.
  - destruct (String.eqb_spec k' k0) as [->|Hne]; simpl.
    + destruct (String.eqb k k0); reflexivity.
    + destruct (String.eqb_spec k k0) as [->|Hk0]; rewrite ?IH.
      * destruct (String.eqb_spec k0 k'); [congruence|reflexivity].
      * reflexivity.
Qed.

Lemma Dict_get_notin {V} (k : string) (d : list (string * V)) :
  ~ In k (map fst d) -> Dict.get k d = None.
Proof.
  induction d as [|[k0 v0] d IH]; simpl; intros H; [reflexivity|].
  destruct (String.eqb_spec k k0); [subst; tauto|]. apply IH; tauto.
Qed.

Lemma Dict_get_In {V} (k : string) (v : V) (d : list (string * V)) :
  Dict.get k d = Some v -> In (k, v) d.
Proof.
  induction d as [|[k0 v0] d IH]; simpl; [discriminate|].
  destruct (String.eqb_spec k k0) as [->|]; [intros H; injection H as ->; left; reflexivity|].
  intros H; right; apply IH, H.
Qed.

Lemma dict_update_get {V} (d u : list (string * V)) (k : string) :
  NoDup (map fst u) ->
  Dict.get k (dict_update d u) = match Dict.get k u with Some v => Some v | None => Dict.get k d end.
Proof.
  unfold dict_update; revert d; induction u as [|[k0 v0] u IH]; intros d Hnd; simpl;
    [reflexivity|].
  inversion Hnd as [|? ? Hnotin Hnd']; subst.
  rewrite IH by exact Hnd'. cbn [fst snd]. rewrite Dict_get_set.
  destruct (String.eqb_spec k k0) as [->|]; [|reflexivity].
  rewrite (Dict_get_notin k0 u Hnotin). reflexivity.
Qed.

Lemma load_custom_factors_get (tbl custom : FactorTable) (a : string) :
  NoDup (map fst custom) ->
  Dict.get a (_load_custom_factors tbl custom) =
  match Dict.get a custom, Dict.get a tbl with
  | Some m, Some existing => Some (dict_update existing m)
  | Some m, None => Some m
  | None, t => t
  end.
Proof.
  unfold _load_custom_factors; revert tbl; induction custom as [|[a0 m0] custom IH];
    intros tbl Hnd; simpl; [destruct (Dict.get a tbl); reflexivity|].
  inversion Hnd as [|? ? Hnotin Hnd']; subst.
  rewrite IH by exact Hnd'. cbn [fst snd].
  destruct (String.eqb_spec a a0) as [->|Hne].
  - rewrite (Dict_get_notin a0 custom Hnotin).
    destruct (Dict.get a0 tbl) as [ex|]; rewrite Dict_get_set, String.eqb_refl; reflexivity.
  - destruct (Dict.get a custom) as [m|];
      destruct (Dict.get a0 tbl) as [ex|]; rewrite Dict_get_set;
      rewrite (proj2 (String.eqb_neq a a0) Hne); reflexivity.
Qed.

(** X5 ([EmissionFactorDatabase.__init__], [_load_custom_factors]): with
    custom factors whose keys are distinct, a factor key the custom table
    gives for an activity takes that value, and every other key keeps the
    default table's value. *)
Theorem emission_factor_database_custom_override (custom : FactorTable) (a k : string) :
  NoDup (map fst custom) ->
  (forall a' m, In (a', m) custom -> NoDup (map fst m)) ->
  match Dict.get a (emission_factor_database (Some custom)) with
  | Some factors => Dict.get k factors
  | None => None
  end =
  match match Dict.get a custom with Some m => Dict.get k m | None => None end with
  | Some v => Some v
  | None => match Dict.get a default_factors with
            | Some factors => Dict.get k factors
            | None => None
            end
  end.
Proof.
  intros Hnd Hin. unfold emission_factor_database.
  rewrite load_custom_factors_get by exact Hnd.
  destruct (Dict.get a custom) as [m|] eqn:Em; [|reflexivity].
  destruct (Dict.get a default_factors) as [ex|].
  - rewrite dict_update_get by exact (Hin a m (Dict_get_In a m custom Em)).
    destruct (Dict.get k m); reflexivity.
  - destruct (Dict.get k m); reflexivity.
Qed.

Section FileNameFacts.
Local Open Scope Z_scope.

Lemma lstrip_by_head (p : Z -> bool) (s : list Z) (c : Z) (r : list Z) :
  lstrip_by p s = c :: r -> p c = false.
Proof.
  induction s as [|x s IH]; simpl; [discriminate|].
  destruct (p x) eqn:E; [exact IH|]. intros H; injection H as -> ->; exact E.
Qed.

Lemma lstrip_by_Forall (P : Z -> Prop) (p : Z -> bool) (s : list Z) :
  Forall P s -> Forall P (lstrip_by p s).
Proof.
  induction s as [|x s IH]; simpl; intros H; [constructor|].
  inversion H; subst. destruct (p x); [apply IH; assumption|exact H].
Qed.

Lemma lstrip_by_keep (p : Z -> bool) (c : Z) (s : list Z) :
  p c = false -> lstrip_by p (c :: s) = c :: s.
Proof. simpl. intros ->. reflexivity. Qed.

Lemma filter_Forall_safe (l : list Z) :
  Forall (fun c => safe_name_char c = true) (filter safe_name_char l).
Proof. apply Forall_forall. intros x Hx. apply filter_In in Hx. tauto. Qed.

Lemma filter_all_true {A : Type} (f : A -> bool) (l : list A) :
  Forall (fun x => f x = true) l -> filter f l = l.
Proof.
  induction l as [|x l IH]; simpl; intros H; [reflexivity|].
  inversion H; subst. rewrite H2, IH by assumption. reflexivity.
Qed.

Lemma safe_name_char_range (c : Z) :
  safe_name_char c = true -> 45 <= c <= 122 /\ py_isspace_ascii c = false /\ c <> 32.
Proof.
  unfold safe_name_char, py_isspace_ascii. intros H.
  repeat rewrite orb_true_iff in H. repeat rewrite andb_true_iff in H.
  rewrite ?Z.leb_le, ?Z.eqb_eq in H.
  assert (45 <= c <= 122) by lia. split; [assumption|]. split; [|lia].
  apply not_true_iff_false. rewrite orb_true_iff, !andb_true_iff, !Z.leb_le. lia.
Qed.

Lemma sanitize_filename_props (nfkd : list Z -> list Z) (name : option (list Z)) :
  let r := sanitize_filename nfkd name in
  r <> [] /\ Forall (fun c => safe_name_char c = true) r /\ hd 0 r <> 46.
Proof.
  unfold sanitize_filename.
  assert (Hu : unnamed <> [] /\ Forall (fun c => safe_name_char c = true) unnamed
               /\ hd 0 unnamed <> 46)
    by (split; [discriminate|split; [repeat constructor|cbv; discriminate]]).
  destruct name as [[|c0 cps]|]; try exact Hu.
  match goal with |- context [lstrip_by ?p (filter safe_name_char ?l)] =>
    destruct (lstrip_by p (filter safe_name_char l)) as [|c r] eqn:E end; [exact Hu|].
  split; [discriminate|split].
  - rewrite <- E. apply lstrip_by_Forall, filter_Forall_safe.
  - simpl. apply lstrip_by_head in E. intros ->. discriminate.
Qed.

(** X6 ([sanitize_filename]): the result is never empty, consists only of
    ASCII letters, digits, '.', '_' and '-', and does not start with '.'. *)
Theorem sanitize_filename_safe (nfkd : list Z -> list Z) (name : option (list Z)) :
  let r := sanitize_filename nfkd name in
  r <> [] /\ Forall (fun c => safe_name_char c = true) r /\ hd 0 r <> 46.
Proof. exact (sanitize_filename_props nfkd name). Qed.

(** A name whose characters are all safe and which does not start with a dot. *)
Lemma strip_cps_safe (l : list Z) :
  Forall (fun c => safe_name_char c = true) l -> strip_cps l = l.
Proof.
  intros H. unfold strip_cps.
  assert (Hl : forall m, Forall (fun c => safe_name_char c = true) m ->
                 lstrip_by py_isspace_ascii m = m).
  { intros [|c m] Hm; [reflexivity|]. inversion Hm; subst.
    apply lstrip_by_keep, (safe_name_char_range c); assumption. }
  rewrite (Hl l H), Hl, rev_involutive; [reflexivity|].
  apply Forall_rev, H.
Qed.

Lemma sanitize_filename_fixed (nfkd : list Z -> list Z) (name : list Z) :
  (forall l, Forall (fun c => 0 <= c < 128) l -> nfkd l = l) ->
  name <> [] -> Forall (fun c => safe_name_char c = true) name -> hd 0 name <> 46 ->
  sanitize_filename nfkd (Some name) = name.
Proof.
  intros Hn Hne Hs Hd.
  assert (Hr : Forall (fun c => 0 <= c < 128) name).
  { eapply Forall_impl; [|exact Hs]. intros c Hc. apply safe_name_char_range in Hc. lia. }
  destruct name as [|c0 cps]; [congruence|].
  unfold sanitize_filename. rewrite (Hn (c0 :: cps) Hr).
  rewrite (filter_all_true (fun c => c <? 128) (c0 :: cps))
    by (apply (Forall_impl _ (fun c Hc => proj2 (Z.ltb_lt c 128) (proj2 Hc)) Hr)).
  rewrite strip_cps_safe by exact Hs.
  rewrite map_ext_in with (g := fun c => c).
  2:{ intros c Hc. rewrite Forall_forall in Hs. apply Hs, safe_name_char_range in Hc.
      destruct (Z.eqb_spec c 32); [lia|reflexivity]. }
  rewrite map_id, filter_all_true by exact Hs.
  rewrite lstrip_by_keep by (apply Z.eqb_neq; exact Hd). reflexivity.
Qed.

(** X7 ([sanitize_filename]): when NFKD normalisation leaves ASCII text
    unchanged, sanitising an already sanitised name gives it back. *)
Theorem sanitize_filename_idempotent (nfkd : list Z -> list Z) (name : option (list Z)) :
  (forall l, Forall (fun c => 0 <= c < 128) l -> nfkd l = l) ->
  sanitize_filename nfkd (Some (sanitize_filename nfkd name)) = sanitize_filename nfkd name.
Proof.
  intros Hn. destruct (sanitize_filename_props nfkd name) as [H1 [H2 H3]].
  apply sanitize_filename_fixed; assumption.
Qed.

Lemma digits_rev_range (f : nat) (n : Z) :
  Forall (fun c => 48 <= c <= 57) (digits_rev f n).
Proof.
  revert n; induction f as [|f IH]; intros n; cbn [digits_rev]; [constructor|].
  constructor; [pose proof (Z.mod_pos_bound n 10 ltac:(lia)); lia|].
  destruct (n <? 10); [constructor|apply IH].
Qed.

Lemma py_int_str_no_slash (z : Z) : ~ In 47 (py_int_str z).
Proof.
  assert (H : forall n f, ~ In 47 (rev (digits_rev f n))).
  { intros n f Hin. apply in_rev in Hin.
    apply (proj1 (Forall_forall _ _) (digits_rev_range f n)) in Hin. cbv beta in Hin. lia. }
  unfold py_int_str. destruct (z <? 0); [intros [Hc|Hin]; [discriminate|exact (H _ _ Hin)]|].
  apply H.
Qed.

Lemma hex_safe (c : Z) : (48 <= c <= 57) \/ (97 <= c <= 102) -> safe_name_char c = true.
Proof.
  intros [H|H]; unfold safe_name_char;
    [assert (E : (48 <=? c) && (c <=? 57) = true)|assert (E : (97 <=? c) && (c <=? 122) = true)];
    try (apply andb_true_iff; split; apply Z.leb_le; lia);
    rewrite E, ?orb_true_r, ?orb_true_l; reflexivity.
Qed.

Lemma path_stem_suffix_safe (base : list Z) :
  base <> [] -> Forall (fun c => safe_name_char c = true) base -> hd 0 base <> 46 ->
  path_stem base <> [] /\ hd 0 (path_stem base) = hd 0 base
  /\ Forall (fun c => safe_name_char c = true) (path_stem base)
  /\ Forall (fun c => safe_name_char c = true) (path_suffix base).
Proof.
  intros Hne Hs Hd. unfold path_stem, path_suffix.
  destruct (suffix_index base) as [i|] eqn:Ei.
  - assert (Hi : (0 < i)%nat).
    { unfold suffix_index in Ei. destruct (rfind_dot base 0 None) as [j|]; [|discriminate].
      destruct ((0 <? j)%nat && (j <? length base - 1)%nat) eqn:Ec; [|discriminate].
      injection Ei as <-. apply andb_true_iff in Ec as [Ec _]. apply Nat.ltb_lt, Ec. }
    rewrite <- (firstn_skipn i base) in Hs. apply Forall_app in Hs as [Hs1 Hs2].
    destruct base as [|c r]; [congruence|]. destruct i as [|i]; [lia|].
    simpl. split; [discriminate|split; [reflexivity|split; assumption]].
  - split; [exact Hne|split; [reflexivity|split; [exact Hs|constructor]]].
Qed.

(** X8 ([upload_file]): with a hexadecimal token, the storage path is the
    decimal company id, one '/', and a non-empty name of safe characters not
    starting with '.'; the company id holds no '/', so the file lands
    directly in the company's folder. *)
Theorem upload_storage_path_in_company_folder (nfkd : list Z -> list Z) (company_id : Z)
    (filename : option (list Z)) (token p : list Z) :
  Forall (fun c => (48 <= c <= 57) \/ (97 <= c <= 102)) token ->
  upload_storage_path nfkd company_id filename token = Some p ->
  exists safe_name,
    p = (py_int_str company_id ++ 47 :: safe_name)%list /\ ~ In 47 (py_int_str company_id)
    /\ safe_name <> [] /\ Forall (fun c => safe_name_char c = true) safe_name
    /\ hd 0 safe_name <> 46.
Proof.
  intros Ht Hp. unfold upload_storage_path in Hp.
  destruct filename as [[|c0 cps]|]; try discriminate. injection Hp as <-.
  destruct (sanitize_filename_props nfkd (Some (c0 :: cps))) as [Hne [Hs Hd]].
  destruct (path_stem_suffix_safe _ Hne Hs Hd) as [Hsne [Hsh [Hst Hsu]]].
  eexists; split; [reflexivity|split; [apply py_int_str_no_slash|]].
  split; [destruct (path_stem _); [congruence|discriminate]|split].
  - apply Forall_app; split; [exact Hst|]. constructor; [reflexivity|].
    apply Forall_app; split; [|exact Hsu].
    eapply Forall_impl; [|exact Ht]. exact hex_safe.
  - destruct (path_stem _) as [|c r] eqn:E; [congruence|]. simpl in Hsh |- *. rewrite Hsh. exact Hd.
Qed.

End FileNameFacts.

Lemma select_eq_projects (cols : list string) (col : string) (v : DbVal) (rows : list DbRow)
    (r : DbRow) (k : string) :
  In r (select_eq cols col v rows) -> in_list k cols = false -> row_get k r = VNull.
Proof.
  unfold select_eq, row_get. intros Hin Hk.
  apply in_map_iff in Hin as [r0 [<- _]].
  induction r0 as [|[k' x] r0 IH]; simpl; [reflexivity|].
  destruct (in_list k' cols) eqn:Ek'; simpl; [|exact IH].
  destruct (String.eqb_spec k k') as [->|]; [congruence|exact IH].
Qed.

(** X9 ([end_session]): the endpoint always answers 500 and leaves the
    sensors and activity tables unchanged: the sensor is fetched with only
    its id, so its session_start is always missing. *)
Theorem end_session_always_500 (parse_iso : string -> option Z) (db : SessionTables)
    (fetch_error update_error : bool) (device_id : DbVal) (now : string) :
  end_session parse_iso db fetch_error update_error device_id now = (500%Z, db).
Proof.
  unfold end_session.
  destruct (negb (DbVal_truthy device_id)); [reflexivity|].
  destruct fetch_error; [reflexivity|].
  destruct (select_eq ["id"] "device_id" device_id (sensors_rows db)) as [|row rest] eqn:E;
    [reflexivity|].
  rewrite (select_eq_projects ["id"] "device_id" device_id (sensors_rows db) row "session_start")
    by first [rewrite E; left; reflexivity | reflexivity].
  reflexivity.
Qed.

Lemma ltb0_truthy (x : float) : PrimFloat.ltb 0 x = true -> float_truthy x = true.
Proof.
  unfold float_truthy. rewrite FloatAxioms.ltb_spec, FloatAxioms.eqb_spec. intros H.
  destruct (Prim2SF x) as [[]|[]| |[] m e]; cbv in H |- *; try discriminate; reflexivity.
Qed.

(** X10 ([calculate_intensity_metrics]): each metric is present exactly when
    its denominator is given and strictly positive, and is then the total
    divided by that denominator. *)
Theorem calculate_intensity_metrics_positive_only (t : float) (revenue : option float)
    (employees : option Z) (production_volume : option float) (m : list (string * float)) :
  calculate_intensity_metrics t revenue employees production_volume = Some m ->
  Dict.get "emissions_per_revenue" m =
    match revenue with
    | Some r => if PrimFloat.ltb 0 r then Some (t / r)%float else None
    | None => None
    end
  /\ Dict.get "emissions_per_employee" m =
    match employees with
    | Some n => if (0 <? n)%Z then option_map (fun e => (t / e)%float) (int_to_float n) else None
    | None => None
    end
  /\ Dict.get "emissions_per_unit" m =
    match production_volume with
    | Some p => if PrimFloat.ltb 0 p then Some (t / p)%float else None
    | None => None
    end.
Proof.
  unfold calculate_intensity_metrics. intros H.
  destruct revenue as [r|];
    [destruct (PrimFloat.ltb 0 r) eqn:Er;
       [rewrite (ltb0_truthy r Er) in H|rewrite andb_false_r in H]|];
  (destruct employees as [n|];
    [destruct (0 <? n)%Z eqn:En;
       [rewrite (proj2 (Z.eqb_neq n 0) ltac:(apply Z.ltb_lt in En; lia)) in H;
        destruct (int_to_float n) as [e|]; [|discriminate]
       |rewrite andb_false_r in H]|]);
  (destruct production_volume as [p|];
    [destruct (PrimFloat.ltb 0 p) eqn:Ep;
       [rewrite (ltb0_truthy p Ep) in H|rewrite andb_false_r in H]|]);
  cbn in H; injection H as <-; repeat split.
Qed.

Lemma row_canonical_unknown (sensors : list SensorRow) (a : ActivityRow) :
  (forall k s', row_device_key a = Some k -> In s' sensors -> ~ carries s' k) ->
  row_canonical (build_sensor_map sensors) a = None.
Proof.
  intros H. unfold row_canonical.
  destruct (row_device_key a) as [k|] eqn:Ek; [|reflexivity].
  destruct (al_get PyKey_eqb k (build_sensor_map sensors)) as [v|] eqn:Ev; [|reflexivity].
  destruct (build_sensor_map_src _ _ _ Ev) as [s' [Hin [Hc _]]].
  exfalso. exact (H k s' eq_refl Hin Hc).
Qed.

(** X11 ([compute_sensor_emissions]): an activity row whose device key
    matches no sensor's id or device_id can be removed without changing the
    result. *)
Theorem compute_sensor_emissions_ignores_unknown_rows (parse_iso : string -> option Z)
    (sensors : list SensorRow) (pre post : list ActivityRow) (a : ActivityRow)
    (start_iso end_iso : string) :
  (forall k s', row_device_key a = Some k -> In s' sensors -> ~ carries s' k) ->
  compute_sensor_emissions parse_iso sensors (pre ++ a :: post) start_iso end_iso
  = compute_sensor_emissions parse_iso sensors (pre ++ post) start_iso end_iso.
Proof.
  intros H. unfold compute_sensor_emissions, group_by_canonical.
  destruct sensors as [|s0 sensors']; [reflexivity|].
  rewrite !fold_left_app. cbn [fold_left].
  unfold group_step at 2. rewrite (row_canonical_unknown _ a H). reflexivity.
Qed.

Lemma fold_left_invariant {A B : Type} (f : A -> B -> A) (P : A -> Prop) (l : list B) (x : A) :
  (forall st b, P st -> P (f st b)) -> P x -> P (fold_left f l x).
Proof. revert x; induction l as [|b l IH]; intros x Hf Hx; simpl; auto. Qed.

Lemma method_duration_no_power (power_kw : float) (start_iso end_iso : string)
    parse_iso (acts : list ActivityRow) :
  PrimFloat.ltb 0 power_kw = false ->
  fst (fst (method_duration parse_iso power_kw start_iso end_iso acts)) = 0%float.
Proof.
  intros Hp. unfold method_duration.
  apply (fold_left_invariant _ (fun st => fst (fst st) = 0%float)); [|reflexivity].
  intros [[e c] h] b He. cbn in He; subst e.
  destruct (duration_hours parse_iso start_iso end_iso b); [rewrite Hp|]; reflexivity.
Qed.

(** X12 ([compute_sensor_emissions], per-sensor methods): for a sensor with
    no explicit energy rows and no positive power rating, the energy
    credited is 0. *)
Theorem process_sensor_no_power_no_energy (parse_iso : string -> option Z) (power_kw : float)
    (start_iso end_iso : string) (acts : list ActivityRow) (energy_kwh on_hours : float)
    (cycles : nat) :
  filter (fun a => RowKind_eqb (classify a) ExplicitRow) acts = [] ->
  PrimFloat.ltb 0 power_kw = false ->
  process_sensor parse_iso power_kw start_iso end_iso acts = Some (energy_kwh, cycles, on_hours) ->
  energy_kwh = 0%float.
Proof.
  intros He Hp. unfold process_sensor. rewrite He.
  destruct (filter (fun a => RowKind_eqb (classify a) DurationRow) acts) as [|d ds] eqn:Ed.
  - destruct (filter (fun a => RowKind_eqb (classify a) EventRow) acts) as [|v vs];
      [|rewrite Hp]; intros H; injection H as <- _ _; reflexivity.
  - intros H; injection H as Hm.
    pose proof (method_duration_no_power power_kw start_iso end_iso parse_iso (d :: ds) Hp) as G.
    rewrite Hm in G. exact G.
Qed.

(** X13 ([generate_summary]): when no data point of the company falls in
    the period and the three thresholds are present and non-negative, the
    summary has all totals 0, no activities, count 0, 0% verified, and is
    COMPLIANT. *)
Theorem generate_summary_empty_period (c : CarbonCalculator) (dps : list EmissionDataPoint)
    (company : string) (period_start period_end : Z) (previous : option float)
    (t1 t2 t3 : float) :
  filter (in_period company period_start period_end) dps = [] ->
  Dict.get "scope_1_warning" (thresholds c) = Some t1 ->
  Dict.get "scope_2_warning" (thresholds c) = Some t2 ->
  Dict.get "scope_3_warning" (thresholds c) = Some t3 ->
  PrimFloat.ltb t1 0 = false -> PrimFloat.ltb t2 0 = false -> PrimFloat.ltb t3 0 = false ->
  exists s, generate_summary c dps company period_start period_end previous = Some s
    /\ EmissionSummary.scope_1_total s = 0%float /\ EmissionSummary.scope_2_total s = 0%float
    /\ EmissionSummary.scope_3_total s = 0%float /\ EmissionSummary.total_emissions s = 0%float
    /\ EmissionSummary.emissions_by_activity s = []
    /\ EmissionSummary.data_points_count s = O
    /\ EmissionSummary.verified_data_percentage s = 0%float
    /\ EmissionSummary.compliance_status s = COMPLIANT.
Proof.
  intros Hf H1 H2 H3 L1 L2 L3. unfold generate_summary. rewrite Hf.
  change (calculate_bulk c []) with (@nil EmissionDataPoint). unfold summarize_points.
  change (py_sum (scope_emissions SCOPE_1 [])) with 0%float.
  change (py_sum (scope_emissions SCOPE_2 [])) with 0%float.
  change (py_sum (scope_emissions SCOPE_3 [])) with 0%float.
  assert (Hc : _check_compliance_status c 0 0 0 = Some COMPLIANT).
  { unfold _check_compliance_status. rewrite H1, L1, H2, L2, H3, L3. reflexivity. }
  rewrite Hc. eexists; split; [reflexivity|]. repeat split.
Qed.

Lemma odict_get_set_same (d : list (option string * float)) (k : option string) (v : float) :
  ODict.get k (ODict.set k v d) = Some v.
Proof.
  assert (R : ODict.key_eqb k k = true) by (destruct k; simpl; [apply String.eqb_refl|reflexivity]).
  induction d as [|[k0 v0] d IH]; simpl; [rewrite R; reflexivity|].
  destruct (ODict.key_eqb k k0) eqn:E; simpl; [rewrite E; reflexivity|rewrite E; exact IH].
Qed.

Lemma merge_first_seen_mem (combined mapping : list (option string * float)) (k : option string) :
  ODict.mem k combined = true -> ODict.mem k (merge_first_seen combined mapping) = true.
Proof.
  unfold ODict.mem. destruct (ODict.get k combined) as [v|] eqn:E; [|discriminate].
  rewrite (merge_first_seen_keeps _ _ _ _ E). reflexivity.
Qed.

Lemma merge_first_seen_covers (combined mapping : list (option string * float)) kv :
  In kv mapping -> ODict.mem (fst kv) (merge_first_seen combined mapping) = true.
Proof.
  unfold merge_first_seen. revert combined.
  induction mapping as [|kv0 mapping IH]; intros combined Hin; [contradiction|].
  destruct Hin as [->|Hin]; [|apply IH, Hin].
  cbn [fold_left]. apply merge_first_seen_mem.
  destruct (ODict.mem (fst kv) combined) eqn:E; [exact E|].
  unfold ODict.mem. rewrite odict_get_set_same. reflexivity.
Qed.

Lemma merge_first_seen_noop (combined mapping : list (option string * float)) :
  (forall kv, In kv mapping -> ODict.mem (fst kv) combined = true) ->
  merge_first_seen combined mapping = combined.
Proof.
  unfold merge_first_seen. induction mapping as [|kv mapping IH]; intros H; [reflexivity|].
  cbn [fold_left]. rewrite (H kv (or_introl eq_refl)). apply IH. intros; apply H; right; auto.
Qed.

Lemma refresh_loop_once (w : FactorWorld) (src : string) (sources : list string) :
  refresh_loop w (src :: sources) = merge_first_seen [] (load_electricity_factors_from_api w).
Proof.
  unfold refresh_loop. cbn [fold_left].
  generalize (merge_first_seen_covers [] (load_electricity_factors_from_api w)).
  generalize (merge_first_seen [] (load_electricity_factors_from_api w)) as M.
  induction sources as [|s sources IH]; intros M HM; [reflexivity|].
  cbn [fold_left]. rewrite merge_first_seen_noop by exact HM. apply IH, HM.
Qed.



(** X14 ([refresh_cached_factors], [get_factor_for_unit]): after a refresh
    with at least one configured source and a writable cache, the unit "SWE"
    (in any case and spacing) looks up Ember's Swedish intensity divided by
    1000. *)
Theorem refresh_then_lookup_sweden (w : FactorWorld) (g : float) (u : string) :
  configured_sources w <> [] -> cache_writable w = true ->
  ember_intensity w (Some "SWE") = Some g ->
  u <> "" -> lower (remove_char " " u) = "swe" ->
  get_factor_for_unit (fst (refresh_cached_factors w)) (Some u) = Some (g / 1000)%float.
Proof.
  intros Hs Hw Hg Hu Hl.
  rewrite (get_factor_for_unit_key _ u "swe" Hu ltac:(discriminate) Hl).
  unfold refresh_cached_factors.
  destruct (configured_sources w) as [|src sources]; [congruence|].
  rewrite refresh_loop_once.
  unfold load_electricity_factors_from_api, ember_entities. cbn [fold_left].
  rewrite Hg.
  destruct (ember_intensity w (Some "NOR")), (ember_intensity w (Some "DNK")),
    (ember_intensity w (Some "FIN")), (ember_intensity w None);
  cbn [ODict.set ODict.key_eqb ODict.get ODict.mem merge_first_seen fold_left fst snd];
  unfold save_cached_factors; rewrite Hw; vm_compute; reflexivity.
Qed.

(** X15 ([generate_summary], [_check_compliance_status]): without a
    scope_1_warning threshold the summary raises (KeyError), whatever the
    data. *)
Theorem generate_summary_missing_scope1_threshold (c : CarbonCalculator)
    (dps : list EmissionDataPoint) (company : string) (period_start period_end : Z)
    (previous : option float) :
  Dict.get "scope_1_warning" (thresholds c) = None ->
  generate_summary c dps company period_start period_end previous = None.
Proof.
  intros H. unfold generate_summary, summarize_points, _check_compliance_status.
  rewrite H. reflexivity.
Qed.

(** X16 ([compute_sensor_emissions], event method): a single ON event
    inside the window of a powered sensor is counted as on until the window
    end: on-hours h = (end - t) / 3600 s and energy h * power, with no
    completed cycle. *)
Theorem process_sensor_open_on_until_window_end (parse_iso : string -> option Z)
    (power_kw : float) (start_iso end_iso : string) (a : ActivityRow) (st : string)
    (t sd ed : Z) :
  classify a = EventRow -> a_state a = Some st -> upper st = "ON" ->
  parse_opt parse_iso (event_time_of a) = Some t ->
  parse_opt parse_iso (Some start_iso) = Some sd -> parse_opt parse_iso (Some end_iso) = Some ed ->
  (sd <= t < ed)%Z -> PrimFloat.ltb 0 power_kw = true ->
  let h := ((0 + total_seconds (ed - t)) / 3600)%float in
  process_sensor parse_iso power_kw start_iso end_iso [a]
  = Some (if PrimFloat.ltb 0 h then ((h * power_kw)%float, O, h) else (0%float, O, 0%float)).
Proof.
  intros Hc Hs Hu Ht Hsd Hed Hw Hp h.
  unfold process_sensor. cbn [filter]. rewrite Hc. cbn. rewrite Hp.
  unfold method_events, events_of. cbn [flat_map]. rewrite Ht, Hs, Hu. cbn [app].
  rewrite Hsd, Hed. cbn [sort_events fold_left insert_event].
  unfold sort_events; cbn [fold_left insert_event].
  unfold event_step. cbn [fst snd].
  rewrite (proj2 (Z.ltb_ge t sd)) by lia. rewrite (proj2 (Z.ltb_ge ed t)) by lia.
  cbn [String.eqb Ascii.eqb Bool.eqb].
  rewrite Z.max_l by lia. rewrite (proj2 (Z.ltb_lt t ed)) by lia.
  subst h. destruct (PrimFloat.ltb 0 ((0 + total_seconds (ed - t)) / 3600)%float); reflexivity.
Qed.

(** ** Witnesses *)

Lemma get_factor_for_unit_case_space_insensitive_witness :
  forallb plain_ascii (list_ascii_of_string "KWH") = true
  /\ forallb plain_ascii (list_ascii_of_string "k Wh") = true
  /\ "KWH" <> "" /\ "k Wh" <> "" /\ lower (remove_char " " "KWH") = lower (remove_char " " "k Wh")
  /\ get_factor_for_unit sample_factor_world (Some "KWH")
     = get_factor_for_unit sample_factor_world (Some "k Wh").
Proof.
  split; [reflexivity|split; [reflexivity|]].
  split; [discriminate|split; [discriminate|split; [reflexivity|]]].
  apply (get_factor_for_unit_case_space_insensitive sample_factor_world "KWH" "k Wh");
    [reflexivity|reflexivity|discriminate|discriminate|reflexivity].
Defined.

Lemma convert_to_kg_tonne_units_witness :
  in_list (lower (remove_char " " "T CO2")) tonne_units = true
  /\ convert_to_kg (Some 2.5%float) (Some "T CO2") = Some (2.5 * 1000)%float.
Proof.
  split; [reflexivity|]. apply (convert_to_kg_tonne_units 2.5%float "T CO2"). reflexivity.
Defined.

Lemma item_emissions_fallback_net_negative_witness :
  snd (item_emissions_fallback sample_factor_world (Some 10%float) (Some "kWh") true)
    = Some (-2.5)%float
  /\ PrimFloat.ltb 0 (-2.5)%float = false.
Proof.
  assert (H : snd (item_emissions_fallback sample_factor_world (Some 10%float) (Some "kWh") true)
              = Some (-2.5)%float) by (vm_compute; reflexivity).
  split; [exact H|].
  exact (item_emissions_fallback_net_negative sample_factor_world (Some 10%float) (Some "kWh")
           (-2.5)%float H).
Defined.

Lemma item_emissions_fallback_tonnes_witness :
  in_list (lower (remove_char " " "t CO2e")) tonne_units = true
  /\ get_factor_for_unit sample_factor_world (Some "t CO2e") = Some 1.5%float
  /\ item_emissions_fallback sample_factor_world (Some 2%float) (Some "t CO2e") false
     = (Some 1.5%float, Some (2 * 1000 * 1.5)%float).
Proof.
  split; [reflexivity|split; [vm_compute; reflexivity|]].
  apply (item_emissions_fallback_tonnes sample_factor_world 2%float 1.5%float "t CO2e");
    [reflexivity|vm_compute; reflexivity].
Defined.

Lemma emission_factor_database_custom_override_witness :
  let custom := [("electricity", [("SE", 0.02%float)])] in
  NoDup (map fst custom)
  /\ (forall a' m, In (a', m) custom -> NoDup (map fst m))
  /\ match Dict.get "electricity" (emission_factor_database (Some custom)) with
     | Some factors => Dict.get "SE" factors
     | None => None
     end =
     match match Dict.get "electricity" custom with
           | Some m => Dict.get "SE" m | None => None end with
     | Some v => Some v
     | None => match Dict.get "electricity" default_factors with
               | Some factors => Dict.get "SE" factors
               | None => None
               end
     end.
Proof.
  intros custom.
  assert (H1 : NoDup (map fst custom)) by (constructor; [intros []|constructor]).
  assert (H2 : forall a' m, In (a', m) custom -> NoDup (map fst m)).
  { intros a' m [H|[]]. injection H as _ <-. constructor; [intros []|constructor]. }
  split; [exact H1|split; [exact H2|]].
  exact (emission_factor_database_custom_override custom "electricity" "SE" H1 H2).
Defined.

Lemma sanitize_filename_idempotent_witness :
  (forall l, Forall (fun c => (0 <= c < 128)%Z) l -> (fun l : list Z => l) l = l)
  /\ sanitize_filename (fun l => l)
       (Some (sanitize_filename (fun l => l)
                (Some [32;46;114;101;112;32;111;114;116;46;112;100;102]%Z)))
     = sanitize_filename (fun l => l) (Some [32;46;114;101;112;32;111;114;116;46;112;100;102]%Z).
Proof.
  assert (H : forall l, Forall (fun c => (0 <= c < 128)%Z) l -> (fun l : list Z => l) l = l)
    by (intros; reflexivity).
  split; [exact H|]. exact (sanitize_filename_idempotent (fun l => l) _ H).
Defined.

Lemma upload_storage_path_in_company_folder_witness :
  let token := [97;98;99;100;49;50;51;52]%Z in
  let p := [52;50;47;114;101;112;45;111;114;116;45;97;98;99;100;49;50;51;52;46;112;100;102]%Z in
  Forall (fun c => (48 <= c <= 57)%Z \/ (97 <= c <= 102)%Z) token
  /\ upload_storage_path (fun l => l) 42 (Some [32;114;101;112;32;111;114;116;46;112;100;102]%Z)
       token = Some p
  /\ exists safe_name : list Z,
       p = (py_int_str 42 ++ 47%Z :: safe_name)%list /\ ~ In 47%Z (py_int_str 42)
       /\ safe_name <> [] /\ Forall (fun c => safe_name_char c = true) safe_name
       /\ hd 0%Z safe_name <> 46%Z.
Proof.
  intros token p.
  assert (Ht : Forall (fun c => (48 <= c <= 57)%Z \/ (97 <= c <= 102)%Z) token)
    by (repeat constructor; lia).
  assert (Hp : upload_storage_path (fun l => l) 42
                 (Some [32;114;101;112;32;111;114;116;46;112;100;102]%Z) token = Some p)
    by (vm_compute; reflexivity).
  split; [exact Ht|split; [exact Hp|]].
  exact (upload_storage_path_in_company_folder (fun l => l) 42 _ token p Ht Hp).
Defined.

Lemma calculate_intensity_metrics_positive_only_witness :
  let m := [("emissions_per_revenue", 200%float); ("emissions_per_employee", 25%float)] in
  calculate_intensity_metrics 100 (Some 0.5%float) (Some 4%Z) (Some 0%float) = Some m
  /\ Dict.get "emissions_per_revenue" m =
       (if PrimFloat.ltb 0 0.5 then Some (100 / 0.5)%float else None)
  /\ Dict.get "emissions_per_employee" m =
       (if (0 <? 4)%Z then option_map (fun e => (100 / e)%float) (int_to_float 4) else None)
  /\ Dict.get "emissions_per_unit" m =
       (if PrimFloat.ltb 0 0 then Some (100 / 0)%float else None).
Proof.
  intros m.
  assert (H : calculate_intensity_metrics 100 (Some 0.5%float) (Some 4%Z) (Some 0%float) = Some m)
    by (vm_compute; reflexivity).
  split; [exact H|].
  exact (calculate_intensity_metrics_positive_only 100 (Some 0.5%float) (Some 4%Z)
           (Some 0%float) m H).
Defined.

Lemma compute_sensor_emissions_ignores_unknown_rows_witness :
  (forall k s', row_device_key stray_row = Some k -> In s' [sensor_one] -> ~ carries s' k)
  /\ compute_sensor_emissions parse_iso_basic [sensor_one] ([energy_row] ++ stray_row :: [])
       "2025-01-01T00:00:00" "2025-01-01T12:00:00"
     = compute_sensor_emissions parse_iso_basic [sensor_one] ([energy_row] ++ [])
       "2025-01-01T00:00:00" "2025-01-01T12:00:00".
Proof.
  assert (H : forall k s', row_device_key stray_row = Some k -> In s' [sensor_one] ->
                           ~ carries s' k).
  { intros k s' Hk [<-|[]]. vm_compute in Hk. injection Hk as <-.
    unfold carries, sensor_one; cbn. intros [E|E]; discriminate. }
  split; [exact H|].
  exact (compute_sensor_emissions_ignores_unknown_rows parse_iso_basic [sensor_one] [energy_row]
           [] stray_row "2025-01-01T00:00:00" "2025-01-01T12:00:00" H).
Defined.

Lemma process_sensor_no_power_no_energy_witness :
  let acts := [session_row (Some (Num 3%float)) "2025-01-01T01:00:00" "2025-01-01T04:00:00"] in
  filter (fun a => RowKind_eqb (classify a) ExplicitRow) acts = []
  /\ PrimFloat.ltb 0 0 = false
  /\ process_sensor parse_iso_basic 0 "2025-01-01T00:00:00" "2025-01-01T12:00:00" acts
     = Some (0%float, 1%nat, 3%float)
  /\ 0%float = 0%float.
Proof.
  intros acts.
  assert (He : filter (fun a => RowKind_eqb (classify a) ExplicitRow) acts = [])
    by (vm_compute; reflexivity).
  assert (Hp : PrimFloat.ltb 0 0 = false) by reflexivity.
  assert (Hs : process_sensor parse_iso_basic 0 "2025-01-01T00:00:00" "2025-01-01T12:00:00" acts
               = Some (0%float, 1%nat, 3%float)) by (vm_compute; reflexivity).
  split; [exact He|split; [exact Hp|split; [exact Hs|]]].
  exact (process_sensor_no_power_no_energy parse_iso_basic 0 _ _ acts 0%float 3%float 1%nat
           He Hp Hs).
Defined.

Lemma generate_summary_empty_period_witness :
  filter (in_period "acme" 0 100) [] = []
  /\ exists s, generate_summary default_calculator [] "acme" 0 100 None = Some s
    /\ EmissionSummary.scope_1_total s = 0%float /\ EmissionSummary.scope_2_total s = 0%float
    /\ EmissionSummary.scope_3_total s = 0%float /\ EmissionSummary.total_emissions s = 0%float
    /\ EmissionSummary.emissions_by_activity s = []
    /\ EmissionSummary.data_points_count s = O
    /\ EmissionSummary.verified_data_percentage s = 0%float
    /\ EmissionSummary.compliance_status s = COMPLIANT.
Proof.
  split; [reflexivity|].
  apply (generate_summary_empty_period default_calculator [] "acme" 0 100 None
           100000%float 50000%float 200000%float); reflexivity.
Defined.

Lemma refresh_then_lookup_sweden_witness :
  configured_sources ember_world <> [] /\ cache_writable ember_world = true
  /\ ember_intensity ember_world (Some "SWE") = Some 13%float
  /\ "S WE" <> "" /\ lower (remove_char " " "S WE") = "swe"
  /\ get_factor_for_unit (fst (refresh_cached_factors ember_world)) (Some "S WE")
     = Some (13 / 1000)%float.
Proof.
  assert (Hs : configured_sources ember_world <> []) by (vm_compute; discriminate).
  split; [exact Hs|split; [reflexivity|split; [reflexivity|split; [discriminate|split;
    [reflexivity|]]]]].
  apply (refresh_then_lookup_sweden ember_world 13%float "S WE" Hs);
    [reflexivity|reflexivity|discriminate|reflexivity].
Defined.

Lemma generate_summary_missing_scope1_threshold_witness :
  let c := mkCalculator default_factors (_load_thresholds (Some [("scope_2_warning", 1%float)])) in
  Dict.get "scope_1_warning" (thresholds c) = None
  /\ generate_summary c [] "acme" 0 100 None = None.
Proof.
  intros c. assert (H : Dict.get "scope_1_warning" (thresholds c) = None) by reflexivity.
  split; [exact H|]. exact (generate_summary_missing_scope1_threshold c [] "acme" 0 100 None H).
Defined.

Lemma process_sensor_open_on_until_window_end_witness :
  let a := event_row "on" "2025-01-01T10:00:00" in
  let t := 1735725600000000%Z in
  let sd := 1735689600000000%Z in
  let ed := 1735732800000000%Z in
  classify a = EventRow /\ a_state a = Some "on" /\ upper "on" = "ON"
  /\ parse_opt parse_iso_basic (event_time_of a) = Some t
  /\ parse_opt parse_iso_basic (Some "2025-01-01T00:00:00") = Some sd
  /\ parse_opt parse_iso_basic (Some "2025-01-01T12:00:00") = Some ed
  /\ (sd <= t < ed)%Z /\ PrimFloat.ltb 0 2 = true
  /\ let h := ((0 + total_seconds (ed - t)) / 3600)%float in
     process_sensor parse_iso_basic 2 "2025-01-01T00:00:00" "2025-01-01T12:00:00" [a]
     = Some (if PrimFloat.ltb 0 h then ((h * 2)%float, O, h) else (0%float, O, 0%float)).
Proof.
  intros a t sd ed.
  assert (H1 : classify a = EventRow) by (vm_compute; reflexivity).
  assert (H2 : a_state a = Some "on") by reflexivity.
  assert (H3 : upper "on" = "ON") by reflexivity.
  assert (H4 : parse_opt parse_iso_basic (event_time_of a) = Some t) by (vm_compute; reflexivity).
  assert (H5 : parse_opt parse_iso_basic (Some "2025-01-01T00:00:00") = Some sd)
    by (vm_compute; reflexivity).
  assert (H6 : parse_opt parse_iso_basic (Some "2025-01-01T12:00:00") = Some ed)
    by (vm_compute; reflexivity).
  assert (H7 : (sd <= t < ed)%Z) by (unfold sd, t, ed; lia).
  assert (H8 : PrimFloat.ltb 0 2 = true) by reflexivity.
  do 8 (split; [assumption|]).
  exact (process_sensor_open_on_until_window_end parse_iso_basic 2 "2025-01-01T00:00:00"
           "2025-01-01T12:00:00" a "on" t sd ed H1 H2 H3 H4 H5 H6 H7 H8).
Defined.
